(** * Infisical SDK model layer: [infisical_sdk/api_types.py]

    A shallow embedding of the data-transfer objects of the SDK and of the
    serialization contract they share ([to_dict], [from_dict], [to_json],
    [from_json]), followed by the properties the specification states
    about them.

    Python values are dynamically typed, so the embedding has one universe
    [value] of run-time values.  An [int] is an integer; a [float] is an
    IEEE 754 binary64 number, given as the standard library specifies one
    ([spec_float]: a signed zero, a signed infinity, NaN, or a sign, a
    mantissa and a binary exponent).  A Python [dict] is an association
    list in insertion order whose keys are strings: the keys of a decoded
    JSON object and the names of keyword arguments are always strings. *)

From Stdlib Require Import List String Ascii ZArith Bool Lia DecimalString.
From Stdlib Require Import SpecFloat.
Import ListNotations.
Open Scope string_scope.
Open Scope list_scope.

(** ** Run-time values *)

(** [class ApprovalStatus(str, Enum)] *)
Inductive ApprovalStatus : Type := OPEN | APPROVED | REJECTED.

(** The [.value] attribute of a member. *)
Definition enum_value (e : ApprovalStatus) : string :=
  match e with
  | OPEN => "open"
  | APPROVED => "approved"
  | REJECTED => "rejected"
  end.

(** The dataclasses of the module. *)
Inductive class_name : Type :=
| SecretTag
| SecretMetadata
| BaseSecret
| Import
| ListSecretsResponse
| SingleSecretResponse
| MachineIdentityLoginResponse.

Definition class_eqb (c c' : class_name) : bool :=
  match c, c' with
  | SecretTag, SecretTag
  | SecretMetadata, SecretMetadata
  | BaseSecret, BaseSecret
  | Import, Import
  | ListSecretsResponse, ListSecretsResponse
  | SingleSecretResponse, SingleSecretResponse
  | MachineIdentityLoginResponse, MachineIdentityLoginResponse => true
  | _, _ => false
  end.

(** A value is [None], a [bool], an [int], a [str], a member of the
    enumeration, a [list], a [dict], an instance of one of the
    dataclasses, or a [float]; an instance carries its class and its
    [__dict__]. *)
Unset Elimination Schemes.
Inductive value : Type :=
| VNone
| VBool (b : bool)
| VInt (n : Z)
| VStr (s : string)
| VEnum (e : ApprovalStatus)
| VList (items : list value)
| VDict (entries : list (string * value))
| VObj (o : instance)
| VFloat (x : spec_float)
with instance : Type :=
| Instance (cls : class_name) (dict : list (string * value)).
Set Elimination Schemes.

Definition pydict : Type := list (string * value).

Definition class_of (o : instance) : class_name :=
  match o with Instance c _ => c end.

Definition dict_of (o : instance) : pydict :=
  match o with Instance _ d => d end.

(** ** Dictionaries *)

(** [d.get(k)]: the entry stored under [k], if any. *)
Fixpoint lookup (k : string) (d : pydict) : option value :=
  match d with
  | [] => None
  | (k', v) :: rest => if String.eqb k' k then Some v else lookup k rest
  end.

Definition keys (d : pydict) : list string := map fst d.

(** [d[k] = v]: replaces the entry in place or appends a new one. *)
Fixpoint dict_set (d : pydict) (k : string) (v : value) : pydict :=
  match d with
  | [] => [(k, v)]
  | (k', v') :: rest =>
      if String.eqb k' k then (k', v) :: rest else (k', v') :: dict_set rest k v
  end.

(** [del d[k]] (no error when the key is absent). *)
Definition dict_del (k : string) (d : pydict) : pydict :=
  filter (fun kv => negb (String.eqb (fst kv) k)) d.

Fixpoint unique (l : list string) : bool :=
  match l with
  | [] => true
  | k :: rest => negb (existsb (String.eqb k) rest) && unique rest
  end.

Definition is_none (v : value) : bool :=
  match v with VNone => true | _ => false end.

(** [self.name] *)
Definition getattr (o : instance) (name : string) : option value :=
  lookup name (dict_of o).

(** ** Exceptions *)

Inductive exn : Type :=
| TypeError
| KeyError
| AttributeError
| JSONDecodeError
| FrozenInstanceError.

Inductive result (A : Type) : Type :=
| Ok (a : A)
| Raise (e : exn).
Arguments Ok {A} a.
Arguments Raise {A} e.

Definition bind {A B : Type} (m : result A) (k : A -> result B) : result B :=
  match m with
  | Ok a => k a
  | Raise e => Raise e
  end.

Notation "x <- m ;; k" := (bind m (fun x => k))
  (at level 61, m at next level, right associativity).

(** A comprehension [[f(x) for x in l]]: the first exception ends it. *)
Fixpoint mapM {A B : Type} (f : A -> result B) (l : list A) : result (list B) :=
  match l with
  | [] => Ok []
  | x :: rest => y <- f x ;; ys <- mapM f rest ;; Ok (y :: ys)
  end.

(** ** [BaseModel.to_dict] *)

(** The loop body of [to_dict] for one [(key, value)] item of
    [self.__dict__]: a [None] is skipped, a nested model is converted, the
    items of a list that are models are converted, an enumeration member
    is replaced by its [.value], anything else is stored as it is.  The
    keys of [__dict__] are distinct, so that [result[key] = ...] always
    adds a new entry at the end of [result] ([to_dict_is_loop] below
    compares this with the loop written as assignments). *)
Fixpoint to_dict (self : instance) : pydict :=
  match self with
  | Instance _ d =>
      flat_map
        (fun kv =>
           match kv with
           | (key, v) =>
               match v with
               | VNone => []
               | VObj o => [(key, VDict (to_dict o))]
               | VList l =>
                   [(key,
                     VList
                       (map
                          (fun item =>
                             match item with
                             | VObj o => VDict (to_dict o)
                             | _ => item
                             end) l))]
               | VEnum e => [(key, VStr (enum_value e))]
               | _ => [(key, v)]
               end
           end) d
  end.

(** ** The declared fields of the dataclasses *)

(** The annotation of a field.  Python does not check annotations at run
    time: they take no part in the operations below and only serve to say
    when an instance holds what its class declares. *)
Inductive annotation : Type :=
| TStr
| TInt
| TBool
| TAny
| TOptional (t : annotation)
| TList (t : annotation)
| TModel (c : class_name).

(** What the generated [__init__] does for a parameter that is not
    passed: a field without default is a required parameter, a field
    [= v] takes [v], a field [field(default_factory=list)] takes a fresh
    empty list. *)
Inductive default : Type :=
| Required
| Default (v : value)
| DefaultFactoryList.

Record field : Type := mkField {
  fname : string;
  ftype : annotation;
  fdefault : default
}.

Definition fields (cls : class_name) : list field :=
  match cls with
  | SecretTag =>
      [ mkField "id" TStr Required;
        mkField "slug" TStr Required;
        mkField "name" TStr Required;
        mkField "color" (TOptional TStr) (Default VNone) ]
  | SecretMetadata =>
      [ mkField "key" TStr Required;
        mkField "value" TStr Required ]
  | BaseSecret =>
      [ mkField "id" TStr Required;
        mkField "_id" TStr Required;
        mkField "workspace" TStr Required;
        mkField "environment" TStr Required;
        mkField "version" TInt Required;
        mkField "type" TStr Required;
        mkField "secretKey" TStr Required;
        mkField "secretValue" TStr Required;
        mkField "secretComment" TStr Required;
        mkField "createdAt" TStr Required;
        mkField "updatedAt" TStr Required;
        mkField "secretReminderNote" (TOptional TStr) (Default VNone);
        mkField "secretReminderRepeatDays" (TOptional TInt) (Default VNone);
        mkField "skipMultilineEncoding" (TOptional TBool) (Default (VBool false));
        mkField "metadata" (TOptional TAny) (Default VNone);
        mkField "secretMetadata" (TList (TModel SecretMetadata)) DefaultFactoryList;
        mkField "secretPath" (TOptional TStr) (Default VNone);
        mkField "tags" (TList (TModel SecretTag)) DefaultFactoryList ]
  | Import =>
      [ mkField "secretPath" TStr Required;
        mkField "environment" TStr Required;
        mkField "folderId" (TOptional TStr) (Default VNone);
        mkField "secrets" (TList (TModel BaseSecret)) DefaultFactoryList ]
  | ListSecretsResponse =>
      [ mkField "secrets" (TList (TModel BaseSecret)) Required;
        mkField "imports" (TList (TModel Import)) DefaultFactoryList ]
  | SingleSecretResponse =>
      [ mkField "secret" (TModel BaseSecret) Required ]
  | MachineIdentityLoginResponse =>
      [ mkField "accessToken" TStr Required;
        mkField "expiresIn" TInt Required;
        mkField "accessTokenMaxTTL" TInt Required;
        mkField "tokenType" TStr Required ]
  end.

Definition field_names (cls : class_name) : list string :=
  map fname (fields cls).

Definition is_field (cls : class_name) (k : string) : bool :=
  existsb (String.eqb k) (field_names cls).

(** [@dataclass(frozen=True)] *)
Definition frozen (cls : class_name) : bool :=
  match cls with
  | SecretTag => true
  | _ => false
  end.

(** ** Construction: a call of the class with keyword arguments *)

(** The value the generated [__init__] stores in one field. *)
Definition init_field (kwargs : pydict) (f : field) : result (string * value) :=
  match lookup (fname f) kwargs with
  | Some v => Ok (fname f, v)
  | None =>
      match fdefault f with
      | Required => Raise TypeError
      | Default v => Ok (fname f, v)
      | DefaultFactoryList => Ok (fname f, VList [])
      end
  end.

(** A call of the class with keyword arguments.  A keyword that names no
    parameter of [__init__] and a required parameter that is not passed
    are both a [TypeError]; otherwise [__init__] assigns the fields in the
    order of their declaration. *)
Definition construct (cls : class_name) (kwargs : pydict) : result instance :=
  if forallb (is_field cls) (keys kwargs) then
    d <- mapM (init_field kwargs) (fields cls) ;;
    Ok (Instance cls d)
  else Raise TypeError.

(** [BaseModel.from_dict]: the class is called with the entries of [data]
    as keyword arguments; unpacking anything but a mapping is a
    [TypeError]. *)
Definition BaseModel_from_dict (cls : class_name) (data : value) : result instance :=
  match data with
  | VDict kwargs => construct cls kwargs
  | _ => Raise TypeError
  end.

(** ** Subscription, [dict.get] and iteration *)

(** [data[key]] for a string [key]: a missing key of a [dict] is a
    [KeyError]; a list and a string take no string index and the other
    values are not subscriptable, which are [TypeError]s. *)
Definition getitem (data : value) (key : string) : result value :=
  match data with
  | VDict d =>
      match lookup key d with
      | Some v => Ok v
      | None => Raise KeyError
      end
  | _ => Raise TypeError
  end.

(** [data.get(key, dflt)]; only a [dict] has the method. *)
Definition dict_get (data : value) (key : string) (dflt : value) : result value :=
  match data with
  | VDict d =>
      match lookup key d with
      | Some v => Ok v
      | None => Ok dflt
      end
  | _ => Raise AttributeError
  end.

Definition chars (s : string) : list value :=
  map (fun c => VStr (String c EmptyString)) (list_ascii_of_string s).

(** [for x in v]: a list yields its items, a [dict] its keys, a string
    its characters; the other values are not iterable. *)
Definition py_iter (v : value) : result (list value) :=
  match v with
  | VList l => Ok l
  | VDict d => Ok (map VStr (keys d))
  | VStr s => Ok (chars s)
  | VEnum e => Ok (chars (enum_value e))
  | _ => Raise TypeError
  end.

(** ** The [from_dict] class methods *)

(** [ListSecretsResponse.from_dict] *)
Definition ListSecretsResponse_from_dict (data : value) : result instance :=
  raw_secrets <- getitem data "secrets" ;;
  raws <- py_iter raw_secrets ;;
  secrets <- mapM (BaseModel_from_dict BaseSecret) raws ;;
  raw_imports <- dict_get data "imports" (VList []) ;;
  imps <- py_iter raw_imports ;;
  imports <- mapM (BaseModel_from_dict Import) imps ;;
  construct ListSecretsResponse
    [("secrets", VList (map VObj secrets)); ("imports", VList (map VObj imports))].

(** [SingleSecretResponse.from_dict] *)
Definition SingleSecretResponse_from_dict (data : value) : result instance :=
  raw <- getitem data "secret" ;;
  secret <- BaseModel_from_dict BaseSecret raw ;;
  construct SingleSecretResponse [("secret", VObj secret)].

(** Which classes define a [from_dict] of their own. *)
Definition overrides_from_dict (cls : class_name) : bool :=
  match cls with
  | ListSecretsResponse | SingleSecretResponse => true
  | _ => false
  end.

(** [cls.from_dict(data)], resolved along the classes. *)
Definition from_dict (cls : class_name) (data : value) : result instance :=
  match cls with
  | ListSecretsResponse => ListSecretsResponse_from_dict data
  | SingleSecretResponse => SingleSecretResponse_from_dict data
  | _ => BaseModel_from_dict cls data
  end.

(** ** Equality: the [==] of Python *)

(** Two floats are equal when they are the same number: NaN is equal to
    nothing, itself included, the two zeros are equal, and two finite
    numbers are compared as the numbers [m * 2 ^ e] they stand for. *)
Definition float_eq (x y : spec_float) : bool :=
  match x, y with
  | S754_zero _, S754_zero _ => true
  | S754_infinity s, S754_infinity s' => Bool.eqb s s'
  | S754_finite s m e, S754_finite s' m' e' =>
      Bool.eqb s s' &&
      Z.eqb (Z.pos m * 2 ^ (e - Z.min e e')) (Z.pos m' * 2 ^ (e' - Z.min e e'))
  | _, _ => false
  end.

(** An [int] and a [float] are compared exactly, as numbers. *)
Definition int_float_eq (n : Z) (x : spec_float) : bool :=
  match x with
  | S754_zero _ => Z.eqb n 0
  | S754_finite s m e =>
      let v := if s then Z.neg m else Z.pos m in
      if Z.leb 0 e then Z.eqb n (v * 2 ^ e) else Z.eqb (n * 2 ^ (- e)) v
  | _ => false
  end.

Definition is_nan (x : spec_float) : bool :=
  match x with
  | S754_nan => true
  | _ => false
  end.

(** [a == b].  [None] equals only [None]; [bool] is a subclass of [int],
    so that [True == 1]; the numbers, [bool], [int] and [float], compare
    by their value; a member of [ApprovalStatus] is a [str] and
    compares as its value; lists are equal when they have equal items at
    equal positions; dictionaries when they have the same keys with equal
    values, whatever the order; two instances with the [__eq__] that
    [@dataclass] generates when they have the same class and equal fields,
    taken in the order of declaration.  Values of unrelated types are
    unequal.  (An instance that lacks a declared attribute is compared
    unequal here; the constructor and attribute assignment never produce
    one.  A container of Python takes an item for equal to itself without
    calling [==] on it; the model has no identity of objects, and a NaN
    inside a list, a dictionary or a record makes them unequal here.) *)
Fixpoint py_eq (a b : value) {struct a} : bool :=
  match a, b with
  | VNone, VNone => true
  | VBool x, VBool y => Bool.eqb x y
  | VBool x, VInt n => Z.eqb (Z.b2z x) n
  | VInt m, VBool y => Z.eqb m (Z.b2z y)
  | VInt m, VInt n => Z.eqb m n
  | VBool x, VFloat y => int_float_eq (Z.b2z x) y
  | VFloat x, VBool y => int_float_eq (Z.b2z y) x
  | VInt m, VFloat y => int_float_eq m y
  | VFloat x, VInt n => int_float_eq n x
  | VFloat x, VFloat y => float_eq x y
  | VStr s, VStr t => String.eqb s t
  | VStr s, VEnum e => String.eqb s (enum_value e)
  | VEnum e, VStr t => String.eqb (enum_value e) t
  | VEnum e, VEnum e' => String.eqb (enum_value e) (enum_value e')
  | VList l, VList l' =>
      (fix list_eq (l l' : list value) {struct l} : bool :=
         match l, l' with
         | [], [] => true
         | x :: r, y :: r' => py_eq x y && list_eq r r'
         | _, _ => false
         end) l l'
  | VDict d, VDict d' =>
      Nat.eqb (List.length d) (List.length d') &&
      (fix entries_eq (d : list (string * value)) {struct d} : bool :=
         match d with
         | [] => true
         | (k, v) :: r =>
             match lookup k d' with
             | Some w => py_eq v w
             | None => false
             end && entries_eq r
         end) d
  | VObj o, VObj o' => dataclass_eq o o'
  | _, _ => false
  end
with dataclass_eq (self other : instance) {struct self} : bool :=
  match self, other with
  | Instance c d, Instance c' d' =>
      class_eqb c c' &&
      forallb
        (fun name =>
           (fix attr_eq (d : list (string * value)) {struct d} : bool :=
              match d with
              | [] => false
              | (k, v) :: r =>
                  if String.eqb k name then
                    match lookup name d' with
                    | Some w => py_eq v w
                    | None => false
                    end
                  else attr_eq r
              end) d)
        (field_names c)
  end.

(** ** Attribute assignment *)

(** The names that the classes of the instances bind to a data
    descriptor: an assignment to one of them does not store an attribute
    of that name. *)
Definition special_name (name : string) : bool :=
  String.eqb name "__class__" || String.eqb name "__dict__" ||
  String.eqb name "__weakref__".

(** The statement [self.name = v]: the instance after the statement and
    the exception it raised, if any.  The [__setattr__] of a frozen
    dataclass raises [FrozenInstanceError] and stores nothing, whatever
    the name.  For the other classes the assignment is that of [object]:
    [__class__] only takes a class, which no value here is
    ([TypeError]); [__dict__] only takes a dictionary, which then
    replaces all the attributes ([TypeError] otherwise); [__weakref__] is
    not writable ([AttributeError]); any other name is stored in the
    [__dict__] of the instance. *)
Definition setattr (self : instance) (name : string) (v : value)
  : instance * option exn :=
  match self with
  | Instance c d =>
      if frozen c then (self, Some FrozenInstanceError)
      else if String.eqb name "__class__" then (self, Some TypeError)
      else if String.eqb name "__dict__" then
        match v with
        | VDict d' => (Instance c d', None)
        | _ => (self, Some TypeError)
        end
      else if String.eqb name "__weakref__" then (self, Some AttributeError)
      else (Instance c (dict_set d name v), None)
  end.

(** ** JSON text *)

Section Json.

(** [json.loads] and [json.dumps] belong to the standard library of
    Python; the model layer only composes them with [from_dict] and
    [to_dict]. *)
Variable json_loads : string -> result value.
Variable json_dumps : value -> result string.

(** [BaseModel.to_json] *)
Definition to_json (self : instance) : result string :=
  json_dumps (VDict (to_dict self)).

(** [BaseModel.from_json] *)
Definition from_json (cls : class_name) (json_str : string) : result instance :=
  data <- json_loads json_str ;;
  from_dict cls data.

End Json.

(** ** Predicates used to state the properties *)

(** The conversion [to_dict] applies to the item of a list. *)
Definition to_dict_item (item : value) : value :=
  match item with
  | VObj o => VDict (to_dict o)
  | _ => item
  end.

(** The conversion [to_dict] applies to a field that is not [None]. *)
Definition to_dict_value (v : value) : value :=
  match v with
  | VObj o => VDict (to_dict o)
  | VList l => VList (map to_dict_item l)
  | VEnum e => VStr (enum_value e)
  | _ => v
  end.

Definition to_dict_entry (kv : string * value) : pydict :=
  if is_none (snd kv) then [] else [(fst kv, to_dict_value (snd kv))].

(** The loop of [to_dict] as it is written, with [result[key] = ...] as
    an assignment into the dictionary [result]. *)
Definition to_dict_loop (d : pydict) : pydict :=
  fold_left
    (fun result kv =>
       if is_none (snd kv) then result
       else dict_set result (fst kv) (to_dict_value (snd kv)))
    d [].

(** A mapping has the shape of a class when each of its keys names a
    field and each field without default has a key. *)
Definition is_required (f : field) : bool :=
  match fdefault f with
  | Required => true
  | _ => false
  end.

Definition has_key (k : string) (d : pydict) : bool :=
  match lookup k d with
  | Some _ => true
  | None => false
  end.

Definition shape_ok (cls : class_name) (kwargs : pydict) : bool :=
  forallb (is_field cls) (keys kwargs) &&
  forallb (fun f => negb (is_required f) || has_key (fname f) kwargs) (fields cls).

(** What a successful construction stores in a field. *)
Definition bound_value (kwargs : pydict) (f : field) : value :=
  match lookup (fname f) kwargs with
  | Some v => v
  | None =>
      match fdefault f with
      | Default v => v
      | _ => VList []
      end
  end.

Definition bound (cls : class_name) (kwargs : pydict) : pydict :=
  map (fun f => (fname f, bound_value kwargs f)) (fields cls).

(** The field of [cls] called [k] is left at [None] when it is not
    passed. *)
Definition default_is_none (cls : class_name) (k : string) : bool :=
  existsb
    (fun f =>
       String.eqb (fname f) k &&
       match fdefault f with
       | Default VNone => true
       | _ => false
       end)
    (fields cls).

(** Plain data, as a JSON decoder produces it: no instance of a model
    and no NaN anywhere inside, and distinct keys in every dictionary. *)
Fixpoint plain (v : value) : bool :=
  match v with
  | VList l => forallb plain l
  | VDict d =>
      unique (map fst d) &&
      forallb (fun kv => match kv with (_, w) => plain w end) d
  | VObj _ => false
  | VFloat x => negb (is_nan x)
  | _ => true
  end.

Definition plain_dict (d : pydict) : bool :=
  forallb (fun kv => plain (snd kv)) d.

(** An instance as the constructor leaves it: exactly the declared
    attributes, in the order of declaration. *)
Definition well_formed (o : instance) : Prop :=
  keys (dict_of o) = field_names (class_of o).

(** No attribute is [None] unless [None] is the declared default: such a
    [None] is the only one that serialization does not lose. *)
Definition lossless (o : instance) : bool :=
  forallb
    (fun kv => negb (is_none (snd kv)) || default_is_none (class_of o) (fst kv))
    (dict_of o).

(** Whether a value holds what an annotation announces (instances are
    only checked for their class). *)
Fixpoint has_type (t : annotation) (v : value) : bool :=
  match t, v with
  | TStr, VStr _ => true
  | TInt, VInt _ => true
  | TBool, VBool _ => true
  | TAny, _ => true
  | TOptional _, VNone => true
  | TOptional t', _ => has_type t' v
  | TList t', VList l => forallb (has_type t') l
  | TModel c, VObj o => class_eqb c (class_of o)
  | _, _ => false
  end.

Definition well_typed (o : instance) : bool :=
  forallb
    (fun f =>
       match getattr o (fname f) with
       | Some v => has_type (ftype f) v
       | None => false
       end)
    (fields (class_of o)).

(** The comparison of one attribute in the generated [__eq__]. *)
Definition attr_eq (d d' : pydict) (name : string) : bool :=
  match lookup name d, lookup name d' with
  | Some v, Some w => py_eq v w
  | _, _ => false
  end.

(** The instances an envelope holds: as the value of an attribute or as
    the item of a list. *)
Definition held_instances (o : instance) : list instance :=
  flat_map
    (fun kv =>
       match snd kv with
       | VObj i => [i]
       | VList l =>
           flat_map (fun v => match v with VObj i => [i] | _ => [] end) l
       | _ => []
       end)
    (dict_of o).

Definition nested_lossless (o : instance) : bool :=
  forallb lossless (held_instances o).

(** The two envelopes, given what they hold. *)
Definition list_secrets_response (secrets imports : list instance) : instance :=
  Instance ListSecretsResponse
    [("secrets", VList (map VObj secrets)); ("imports", VList (map VObj imports))].

Definition single_secret_response (secret : instance) : instance :=
  Instance SingleSecretResponse [("secret", VObj secret)].

(** The two ways in which a mapping misses the shape of a class. *)
Definition unexpected_key (cls : class_name) (kwargs : pydict) : Prop :=
  exists k, In k (keys kwargs) /\ ~ In k (field_names cls).

Definition missing_required (cls : class_name) (kwargs : pydict) : Prop :=
  exists f, In f (fields cls) /\ fdefault f = Required /\ lookup (fname f) kwargs = None.

(** The tag [SecretTag(id=..., slug=..., name=..., color=...)]. *)
Definition secret_tag (id slug name : string) (color : option string) : instance :=
  Instance SecretTag
    [ ("id", VStr id); ("slug", VStr slug); ("name", VStr name);
      ("color", match color with Some c => VStr c | None => VNone end) ].

(** ** Induction on values *)

Section ValueInduction.

Variable P : value -> Prop.
Hypothesis HNone : P VNone.
Hypothesis HBool : forall b, P (VBool b).
Hypothesis HInt : forall n, P (VInt n).
Hypothesis HStr : forall s, P (VStr s).
Hypothesis HEnum : forall e, P (VEnum e).
Hypothesis HList : forall l, Forall P l -> P (VList l).
Hypothesis HDict : forall d, Forall (fun kv => P (snd kv)) d -> P (VDict d).
Hypothesis HObj : forall c d, Forall (fun kv => P (snd kv)) d -> P (VObj (Instance c d)).
Hypothesis HFloat : forall x, P (VFloat x).

Fixpoint value_ind (v : value) : P v :=
  let entries :=
    fix entries (d : list (string * value)) : Forall (fun kv => P (snd kv)) d :=
      match d with
      | [] => Forall_nil _
      | (k, w) :: r => Forall_cons (k, w) (value_ind w) (entries r)
      end in
  match v with
  | VNone => HNone
  | VBool b => HBool b
  | VInt n => HInt n
  | VStr s => HStr s
  | VEnum e => HEnum e
  | VList l =>
      HList l
        ((fix items (l : list value) : Forall P l :=
            match l with
            | [] => Forall_nil _
            | x :: r => Forall_cons x (value_ind x) (items r)
            end) l)
  | VDict d => HDict d (entries d)
  | VObj (Instance c d) => HObj c d (entries d)
  | VFloat x => HFloat x
  end.

End ValueInduction.

(** * Sample data *)

(** The required wire fields of a secret. *)
Definition required_only : pydict :=
  [ ("id", VStr "1"); ("_id", VStr "1"); ("workspace", VStr "w");
    ("environment", VStr "dev"); ("version", VInt 1); ("type", VStr "shared");
    ("secretKey", VStr "K"); ("secretValue", VStr "V"); ("secretComment", VStr "");
    ("createdAt", VStr "t"); ("updatedAt", VStr "t") ].

(** The secret built from them: every optional field at its default. *)
Definition minimal_secret : instance :=
  Instance BaseSecret
    (required_only ++
     [ ("secretReminderNote", VNone); ("secretReminderRepeatDays", VNone);
       ("skipMultilineEncoding", VBool false); ("metadata", VNone);
       ("secretMetadata", VList []); ("secretPath", VNone); ("tags", VList []) ]).

(** The same secret when the wire carries
    ["skipMultilineEncoding": null]. *)
Definition null_flag_secret : instance :=
  Instance BaseSecret
    (required_only ++
     [ ("secretReminderNote", VNone); ("secretReminderRepeatDays", VNone);
       ("skipMultilineEncoding", VNone); ("metadata", VNone);
       ("secretMetadata", VList []); ("secretPath", VNone); ("tags", VList []) ]).

Definition null_flag_raw : value :=
  VDict (required_only ++ [("skipMultilineEncoding", VNone)]).

Definition sample_tag : instance :=
  Instance SecretTag
    [ ("id", VStr "1"); ("slug", VStr "s"); ("name", VStr "n"); ("color", VNone) ].

(** The mapping of the specification's [Import] example and the instance
    the generic [from_dict] builds from it. *)
Definition import_raw : pydict :=
  [ ("secretPath", VStr "/"); ("environment", VStr "dev");
    ("secrets", VList [VDict required_only]) ].

Definition raw_import : instance :=
  Instance Import
    [ ("secretPath", VStr "/"); ("environment", VStr "dev");
      ("folderId", VNone); ("secrets", VList [VDict required_only]) ].

Definition list_response_raw : value :=
  VDict [ ("secrets", VList [VDict required_only]);
          ("imports", VList [VDict import_raw]) ].

(** A secret mapping that already holds a tag instance: not plain data. *)
Definition tagged_raw : value :=
  VDict (required_only ++ [("tags", VList [VObj sample_tag])]).

Definition approved_secret : instance :=
  Instance BaseSecret
    (required_only ++
     [ ("secretReminderNote", VNone); ("secretReminderRepeatDays", VNone);
       ("skipMultilineEncoding", VBool false); ("metadata", VEnum APPROVED);
       ("secretMetadata", VList []); ("secretPath", VNone); ("tags", VList []) ]).

(** ** A sample decoder *)

(** A decoder for a fragment of what [json.loads] reads, to run
    [from_json] on examples: [null], [true], [false], integers, strings
    without escape sequences, arrays and objects, and the three literals
    [NaN], [Infinity] and [-Infinity], which are no JSON but which
    [json.loads] reads as floats.  A text outside the fragment (a number
    with a fraction or an exponent, a string with an escape sequence) is
    refused. *)
Module SampleDecoder.

Definition is_space (c : ascii) : bool :=
  let n := nat_of_ascii c in
  Nat.eqb n 32 || Nat.eqb n 9 || Nat.eqb n 10 || Nat.eqb n 13.

Fixpoint skip_ws (s : list ascii) : list ascii :=
  match s with
  | c :: r => if is_space c then skip_ws r else s
  | [] => []
  end.

Fixpoint strip_prefix (p s : list ascii) : option (list ascii) :=
  match p, s with
  | [], _ => Some s
  | a :: p', b :: s' => if Ascii.eqb a b then strip_prefix p' s' else None
  | _ :: _, [] => None
  end.

Definition digit (c : ascii) : option Z :=
  let n := nat_of_ascii c in
  if Nat.leb 48 n && Nat.leb n 57 then Some (Z.of_nat (n - 48)) else None.

Fixpoint read_digits (acc : Z) (s : list ascii) : Z * list ascii :=
  match s with
  | c :: r =>
      match digit c with
      | Some d => read_digits (10 * acc + d) r
      | None => (acc, s)
      end
  | [] => (acc, [])
  end.

(** An integer without sign: one digit at least, no leading zero. *)
Definition read_nat (s : list ascii) : option (Z * list ascii) :=
  match s with
  | c :: r =>
      match digit c with
      | Some d =>
          if Z.eqb d 0 then
            match r with
            | c' :: _ => match digit c' with Some _ => None | None => Some (0%Z, r) end
            | [] => Some (0%Z, r)
            end
          else Some (read_digits d r)
      | None => None
      end
  | [] => None
  end.

Definition quote : ascii := ascii_of_nat 34.
Definition backslash : ascii := ascii_of_nat 92.

(** The characters up to the closing quote. *)
Fixpoint read_string (s : list ascii) : option (string * list ascii) :=
  match s with
  | [] => None
  | c :: r =>
      if Ascii.eqb c quote then Some (EmptyString, r)
      else if Ascii.eqb c backslash || Nat.ltb (nat_of_ascii c) 32 then None
      else
        match read_string r with
        | Some (t, r') => Some (String c t, r')
        | None => None
        end
  end.

Definition starts_with (c : ascii) (s : list ascii) : option (list ascii) :=
  match s with
  | c' :: r => if Ascii.eqb c c' then Some r else None
  | [] => None
  end.

Fixpoint parse_value (fuel : nat) (s : list ascii) : option (value * list ascii) :=
  match fuel with
  | O => None
  | S n =>
      let s := skip_ws s in
      match strip_prefix (list_ascii_of_string "null") s with
      | Some r => Some (VNone, r)
      | None =>
      match strip_prefix (list_ascii_of_string "true") s with
      | Some r => Some (VBool true, r)
      | None =>
      match strip_prefix (list_ascii_of_string "false") s with
      | Some r => Some (VBool false, r)
      | None =>
      match starts_with quote s with
      | Some r =>
          match read_string r with
          | Some (t, r') => Some (VStr t, r')
          | None => None
          end
      | None =>
      match starts_with "["%char s with
      | Some r =>
          match starts_with "]"%char (skip_ws r) with
          | Some r' => Some (VList [], r')
          | None =>
              match parse_items n r with
              | Some (l, r') => Some (VList l, r')
              | None => None
              end
          end
      | None =>
      match starts_with "{"%char s with
      | Some r =>
          match starts_with "}"%char (skip_ws r) with
          | Some r' => Some (VDict [], r')
          | None =>
              match parse_members n [] r with
              | Some (d, r') => Some (VDict d, r')
              | None => None
              end
          end
      | None =>
      match strip_prefix (list_ascii_of_string "NaN") s with
      | Some r => Some (VFloat S754_nan, r)
      | None =>
      match strip_prefix (list_ascii_of_string "Infinity") s with
      | Some r => Some (VFloat (S754_infinity false), r)
      | None =>
      match strip_prefix (list_ascii_of_string "-Infinity") s with
      | Some r => Some (VFloat (S754_infinity true), r)
      | None =>
      match starts_with "-"%char s with
      | Some r =>
          match read_nat r with
          | Some (z, r') => Some (VInt (- z), r')
          | None => None
          end
      | None =>
          match read_nat s with
          | Some (z, r') => Some (VInt z, r')
          | None => None
          end
      end end end end end end end end end end
  end
with parse_items (fuel : nat) (s : list ascii) : option (list value * list ascii) :=
  match fuel with
  | O => None
  | S n =>
      match parse_value n s with
      | Some (v, r) =>
          let r := skip_ws r in
          match starts_with "]"%char r with
          | Some r' => Some ([v], r')
          | None =>
              match starts_with ","%char r with
              | Some r' =>
                  match parse_items n r' with
                  | Some (l, r'') => Some (v :: l, r'')
                  | None => None
                  end
              | None => None
              end
          end
      | None => None
      end
  end
with parse_members (fuel : nat) (acc : pydict) (s : list ascii)
  : option (pydict * list ascii) :=
  match fuel with
  | O => None
  | S n =>
      match starts_with quote (skip_ws s) with
      | Some r =>
          match read_string r with
          | Some (k, r1) =>
              match starts_with ":"%char (skip_ws r1) with
              | Some r2 =>
                  match parse_value n r2 with
                  | Some (v, r3) =>
                      let acc := dict_set acc k v in
                      let r3 := skip_ws r3 in
                      match starts_with "}"%char r3 with
                      | Some r4 => Some (acc, r4)
                      | None =>
                          match starts_with ","%char r3 with
                          | Some r4 => parse_members n acc r4
                          | None => None
                          end
                      end
                  | None => None
                  end
              | None => None
              end
          | None => None
          end
      | None => None
      end
  end.

Definition loads (text : string) : result value :=
  let s := list_ascii_of_string text in
  match parse_value (2 * List.length s + 2) s with
  | Some (v, r) =>
      match skip_ws r with
      | [] => Ok v
      | _ :: _ => Raise JSONDecodeError
      end
  | None => Raise JSONDecodeError
  end.

Definition q : string := String quote EmptyString.

(** The text [{"key": "k", "value": "v"}]. *)
Definition metadata_text : string :=
  "{" ++ q ++ "key" ++ q ++ ": " ++ q ++ "k" ++ q ++ ", "
      ++ q ++ "value" ++ q ++ ": " ++ q ++ "v" ++ q ++ "}".

(** The same text, cut short. *)
Definition truncated_text : string :=
  "{" ++ q ++ "key" ++ q ++ ": " ++ q ++ "k".

End SampleDecoder.

(** ** Further notions and sample data *)

(** The value the generated [__init__] gives to a parameter that is not
    passed, when the field has a default. *)
Definition default_value (f : field) : option value :=
  match fdefault f with
  | Required => None
  | Default v => Some v
  | DefaultFactoryList => Some (VList [])
  end.

Definition is_mapping (data : value) : bool :=
  match data with
  | VDict _ => true
  | _ => false
  end.

(** [MachineIdentityLoginResponse(accessToken=..., ...)] and
    [SecretMetadata(key=..., value=...)] with values of the announced
    types. *)
Definition login_response
  (accessToken : string) (expiresIn accessTokenMaxTTL : Z) (tokenType : string)
  : instance :=
  Instance MachineIdentityLoginResponse
    [ ("accessToken", VStr accessToken); ("expiresIn", VInt expiresIn);
      ("accessTokenMaxTTL", VInt accessTokenMaxTTL); ("tokenType", VStr tokenType) ].

Definition secret_metadata (key value : string) : instance :=
  Instance SecretMetadata [("key", VStr key); ("value", VStr value)].

(** A metadata mapping whose values are not strings. *)
Definition untyped_metadata_raw : pydict := [("key", VInt 5); ("value", VNone)].

(** The required wire fields of a secret, in another order. *)
Definition required_reordered : pydict :=
  [ ("updatedAt", VStr "t"); ("createdAt", VStr "t"); ("secretComment", VStr "");
    ("secretValue", VStr "V"); ("secretKey", VStr "K"); ("type", VStr "shared");
    ("version", VInt 1); ("environment", VStr "dev"); ("workspace", VStr "w");
    ("_id", VStr "1"); ("id", VStr "1") ].

(** A secret whose [tags] holds a tag instance, a list that holds one, and
    a member of the enumeration. *)
Definition mixed_tags_secret : instance :=
  Instance BaseSecret
    (required_only ++
     [ ("secretReminderNote", VNone); ("secretReminderRepeatDays", VNone);
       ("skipMultilineEncoding", VBool false); ("metadata", VNone);
       ("secretMetadata", VList []); ("secretPath", VNone);
       ("tags", VList [VObj sample_tag; VList [VObj sample_tag]; VEnum OPEN]) ]).

(** A list response on the wire whose one import nests a raw secret. *)
Definition list_response_kvs : pydict :=
  [ ("secrets", VList [VDict required_only]);
    ("imports", VList [VDict import_raw]) ].

(** A secret as the generic [from_dict] builds it when the wire carries
    ["id": null]. *)
Definition null_id_raw : pydict :=
  ("id", VNone) :: tl required_only.

Definition null_id_secret : instance :=
  Instance BaseSecret
    (null_id_raw ++
     [ ("secretReminderNote", VNone); ("secretReminderRepeatDays", VNone);
       ("skipMultilineEncoding", VBool false); ("metadata", VNone);
       ("secretMetadata", VList []); ("secretPath", VNone); ("tags", VList []) ]).

(** ** A sample encoder *)

(** An encoder for the same fragment, with the separators [json.dumps]
    uses by default.  An instance of a model is not serializable
    ([TypeError]); a string that would need an escape sequence and a
    float other than NaN and the infinities are outside the fragment and
    are refused as well. *)
Module SampleEncoder.

Definition needs_escape (c : ascii) : bool :=
  Ascii.eqb c SampleDecoder.quote || Ascii.eqb c SampleDecoder.backslash ||
  Nat.ltb (nat_of_ascii c) 32.

Definition encode_string (s : string) : option string :=
  if existsb needs_escape (list_ascii_of_string s) then None
  else Some (SampleDecoder.q ++ s ++ SampleDecoder.q)%string.

Fixpoint encode (v : value) : option string :=
  match v with
  | VNone => Some "null"
  | VBool true => Some "true"
  | VBool false => Some "false"
  | VInt n => Some (NilZero.string_of_int (Z.to_int n))
  | VStr s => encode_string s
  | VEnum e => encode_string (enum_value e)
  | VList l =>
      match
        (fix items (l : list value) : option (list string) :=
           match l with
           | [] => Some []
           | x :: r =>
               match encode x, items r with
               | Some t, Some ts => Some (t :: ts)
               | _, _ => None
               end
           end) l
      with
      | Some ts => Some ("[" ++ String.concat ", " ts ++ "]")%string
      | None => None
      end
  | VDict d =>
      match
        (fix members (d : list (string * value)) : option (list string) :=
           match d with
           | [] => Some []
           | (k, x) :: r =>
               match encode_string k, encode x, members r with
               | Some tk, Some t, Some ts => Some ((tk ++ ": " ++ t)%string :: ts)
               | _, _, _ => None
               end
           end) d
      with
      | Some ts => Some ("{" ++ String.concat ", " ts ++ "}")%string
      | None => None
      end
  | VObj _ => None
  | VFloat S754_nan => Some "NaN"
  | VFloat (S754_infinity false) => Some "Infinity"
  | VFloat (S754_infinity true) => Some "-Infinity"
  | VFloat _ => None
  end.

Definition dumps (v : value) : result string :=
  match encode v with
  | Some text => Ok text
  | None => Raise TypeError
  end.

End SampleEncoder.

(** ** The grammar of JSON *)

(** A recognizer of the JSON texts of RFC 8259:
    [JSON-text = ws value ws], a value being [false], [null], [true], an
    object, an array, a number ([[-] int [frac] [exp]]) or a string, with
    white space allowed around the six structural characters. *)
Module Rfc8259.

Definition code (c : ascii) : nat := nat_of_ascii c.

Definition is_ws (c : ascii) : bool :=
  Nat.eqb (code c) 32 || Nat.eqb (code c) 9 ||
  Nat.eqb (code c) 10 || Nat.eqb (code c) 13.

Fixpoint ws (s : list ascii) : list ascii :=
  match s with
  | c :: r => if is_ws c then ws r else s
  | [] => []
  end.

Definition is_digit (c : ascii) : bool :=
  Nat.leb 48 (code c) && Nat.leb (code c) 57.

Definition is_hex (c : ascii) : bool :=
  is_digit c ||
  (Nat.leb 65 (code c) && Nat.leb (code c) 70) ||
  (Nat.leb 97 (code c) && Nat.leb (code c) 102).

Definition char (c : ascii) (s : list ascii) : option (list ascii) :=
  match s with
  | c' :: r => if Ascii.eqb c c' then Some r else None
  | [] => None
  end.

Fixpoint literal (p s : list ascii) : option (list ascii) :=
  match p, s with
  | [], _ => Some s
  | a :: p', b :: s' => if Ascii.eqb a b then literal p' s' else None
  | _ :: _, [] => None
  end.

(** [*DIGIT] and [1*DIGIT] *)
Fixpoint digits (s : list ascii) : list ascii :=
  match s with
  | c :: r => if is_digit c then digits r else s
  | [] => []
  end.

Definition digits1 (s : list ascii) : option (list ascii) :=
  match s with
  | c :: r => if is_digit c then Some (digits r) else None
  | [] => None
  end.

(** [int = zero / ( digit1-9 *DIGIT )] *)
Definition int (s : list ascii) : option (list ascii) :=
  match s with
  | c :: r =>
      if Nat.eqb (code c) 48 then Some r
      else if is_digit c then Some (digits r)
      else None
  | [] => None
  end.

(** [frac = decimal-point 1*DIGIT], when there is one *)
Definition frac (s : list ascii) : list ascii :=
  match char "."%char s with
  | Some r => match digits1 r with Some r' => r' | None => s end
  | None => s
  end.

(** [exp = e [ minus / plus ] 1*DIGIT], when there is one *)
Definition exp (s : list ascii) : list ascii :=
  match s with
  | c :: r =>
      if Nat.eqb (code c) 101 || Nat.eqb (code c) 69 then
        let r' :=
          match r with
          | d :: r'' =>
              if Nat.eqb (code d) 45 || Nat.eqb (code d) 43 then r'' else r
          | [] => r
          end in
        match digits1 r' with Some r'' => r'' | None => s end
      else s
  | [] => s
  end.

(** [number = [ minus ] int [ frac ] [ exp ]] *)
Definition number (s : list ascii) : option (list ascii) :=
  let s' := match char "-"%char s with Some r => r | None => s end in
  match int s' with
  | Some r => Some (exp (frac r))
  | None => None
  end.

(** The characters of a string after the opening quotation mark, up to
    and with the closing one: unescaped characters (any but the quotation
    mark, the reverse solidus and the control characters) and escape
    sequences. *)
Fixpoint chars (fuel : nat) (s : list ascii) : option (list ascii) :=
  match fuel with
  | O => None
  | S n =>
      match s with
      | [] => None
      | c :: r =>
          if Nat.eqb (code c) 34 then Some r
          else if Nat.eqb (code c) 92 then
            match r with
            | e :: r' =>
                if Nat.eqb (code e) 34 || Nat.eqb (code e) 92 ||
                   Nat.eqb (code e) 47 || Nat.eqb (code e) 98 ||
                   Nat.eqb (code e) 102 || Nat.eqb (code e) 110 ||
                   Nat.eqb (code e) 114 || Nat.eqb (code e) 116
                then chars n r'
                else if Nat.eqb (code e) 117 then
                  match r' with
                  | h1 :: h2 :: h3 :: h4 :: r'' =>
                      if is_hex h1 && is_hex h2 && is_hex h3 && is_hex h4
                      then chars n r''
                      else None
                  | _ => None
                  end
                else None
            | [] => None
            end
          else if Nat.ltb (code c) 32 then None
          else chars n r
      end
  end.

Definition string_ (s : list ascii) : option (list ascii) :=
  match char (ascii_of_nat 34) s with
  | Some r => chars (S (List.length r)) r
  | None => None
  end.

Fixpoint value_ (fuel : nat) (s : list ascii) : option (list ascii) :=
  match fuel with
  | O => None
  | S n =>
      match literal (list_ascii_of_string "false") s with
      | Some r => Some r
      | None =>
      match literal (list_ascii_of_string "null") s with
      | Some r => Some r
      | None =>
      match literal (list_ascii_of_string "true") s with
      | Some r => Some r
      | None =>
      match char "{"%char s with
      | Some r =>
          match char "}"%char (ws r) with
          | Some r' => Some r'
          | None => members n (ws r)
          end
      | None =>
      match char "["%char s with
      | Some r =>
          match char "]"%char (ws r) with
          | Some r' => Some r'
          | None => elements n (ws r)
          end
      | None =>
      match string_ s with
      | Some r => Some r
      | None => number s
      end end end end end end
  end
with members (fuel : nat) (s : list ascii) : option (list ascii) :=
  match fuel with
  | O => None
  | S n =>
      match string_ s with
      | Some r =>
          match char ":"%char (ws r) with
          | Some r1 =>
              match value_ n (ws r1) with
              | Some r2 =>
                  match char "}"%char (ws r2) with
                  | Some r3 => Some r3
                  | None =>
                      match char ","%char (ws r2) with
                      | Some r3 => members n (ws r3)
                      | None => None
                      end
                  end
              | None => None
              end
          | None => None
          end
      | None => None
      end
  end
with elements (fuel : nat) (s : list ascii) : option (list ascii) :=
  match fuel with
  | O => None
  | S n =>
      match value_ n s with
      | Some r =>
          match char "]"%char (ws r) with
          | Some r' => Some r'
          | None =>
              match char ","%char (ws r) with
              | Some r' => elements n (ws r')
              | None => None
              end
          end
      | None => None
      end
  end.

Definition json_text (text : string) : bool :=
  let s := list_ascii_of_string text in
  match value_ (2 * List.length s + 2) (ws s) with
  | Some r => match ws r with [] => true | _ :: _ => false end
  | None => false
  end.

End Rfc8259.

(** The text [{"key": NaN, "value": "v"}]. *)
Definition nan_metadata_text : string :=
  "{" ++ SampleDecoder.q ++ "key" ++ SampleDecoder.q ++ ": NaN, "
      ++ SampleDecoder.q ++ "value" ++ SampleDecoder.q ++ ": "
      ++ SampleDecoder.q ++ "v" ++ SampleDecoder.q ++ "}".

(** Tags and a metadata record as the generic [from_dict] builds them from
    mappings whose values are not plain strings. *)
Definition bool_id_tag : instance :=
  Instance SecretTag
    [ ("id", VBool true); ("slug", VStr "s"); ("name", VStr "n"); ("color", VNone) ].

Definition int_id_tag : instance :=
  Instance SecretTag
    [ ("id", VInt 1); ("slug", VStr "s"); ("name", VStr "n"); ("color", VNone) ].

Definition enum_color_tag : instance :=
  Instance SecretTag
    [ ("id", VStr "1"); ("slug", VStr "s"); ("name", VStr "n");
      ("color", VEnum OPEN) ].

Definition status_metadata : instance :=
  Instance SecretMetadata [("key", VEnum OPEN); ("value", VEnum REJECTED)].

(** * Basic facts *)


(** ** Dictionaries and comprehensions *)

Lemma existsb_eqb_In (k : string) (l : list string) :
  existsb (String.eqb k) l = true <-> In k l.
Proof.
  rewrite existsb_exists. split.
  - intros [x [Hx Heq]]. apply String.eqb_eq in Heq. now subst.
  - intros H. exists k. split; [assumption | apply String.eqb_refl].
Qed.

Lemma unique_NoDup (l : list string) : unique l = true -> NoDup l.
Proof.
  induction l as [|k r IH]; simpl; intros H.
  - constructor.
  - apply andb_true_iff in H. destruct H as [Hk Hr].
    constructor; [|now apply IH].
    intros Hin. apply existsb_eqb_In in Hin.
    rewrite Hin in Hk. discriminate.
Qed.

Lemma field_names_unique (cls : class_name) : NoDup (field_names cls).
Proof. apply unique_NoDup. destruct cls; reflexivity. Qed.

Lemma is_field_In (cls : class_name) (k : string) :
  is_field cls k = true <-> In k (field_names cls).
Proof. apply existsb_eqb_In. Qed.

Lemma lookup_In (k : string) (d : pydict) (v : value) :
  lookup k d = Some v -> In (k, v) d.
Proof.
  induction d as [|[k' w] r IH]; simpl; [discriminate|].
  destruct (String.eqb k' k) eqn:E.
  - intros H. injection H as ->. apply String.eqb_eq in E. subst. now left.
  - intros H. right. now apply IH.
Qed.

Lemma lookup_None (k : string) (d : pydict) :
  lookup k d = None <-> ~ In k (keys d).
Proof.
  induction d as [|[k' w] r IH]; simpl.
  - tauto.
  - destruct (String.eqb k' k) eqn:E.
    + apply String.eqb_eq in E. subst. split; [discriminate | tauto].
    + apply String.eqb_neq in E. rewrite IH. tauto.
Qed.

Lemma lookup_Some_key (k : string) (d : pydict) :
  In k (keys d) -> exists v, lookup k d = Some v.
Proof.
  intros Hin. destruct (lookup k d) eqn:E; [eauto|].
  apply lookup_None in E. contradiction.
Qed.

Lemma In_lookup (k : string) (v : value) (d : pydict) :
  NoDup (keys d) -> In (k, v) d -> lookup k d = Some v.
Proof.
  induction d as [|[k' w] r IH]; simpl; [tauto|].
  intros Hnd [Heq | Hin].
  - injection Heq as -> ->. now rewrite String.eqb_refl.
  - inversion Hnd as [|? ? Hk Hr]; subst.
    destruct (String.eqb k' k) eqn:E.
    + apply String.eqb_eq in E. subst.
      exfalso. apply Hk. change k with (fst (k, v)). now apply in_map.
    + now apply IH.
Qed.

Lemma lookup_dict_del_same (k : string) (d : pydict) :
  lookup k (dict_del k d) = None.
Proof.
  apply lookup_None. unfold keys, dict_del. intros Hin.
  apply in_map_iff in Hin. destruct Hin as [[k' v] [Hk Hin]].
  apply filter_In in Hin. destruct Hin as [_ Hneq]. simpl in *. subst.
  rewrite String.eqb_refl in Hneq. discriminate.
Qed.

Lemma lookup_dict_del_other (k k' : string) (d : pydict) :
  k <> k' -> lookup k' (dict_del k d) = lookup k' d.
Proof.
  intros Hneq. induction d as [|[k0 v] r IH]; simpl; [reflexivity|].
  destruct (String.eqb k0 k) eqn:E; simpl.
  - apply String.eqb_eq in E. subst.
    apply String.eqb_neq in Hneq. now rewrite Hneq.
  - now rewrite IH.
Qed.

Lemma lookup_map_fields (g : field -> value) (fs : list field) (f : field) :
  NoDup (map fname fs) -> In f fs ->
  lookup (fname f) (map (fun f' => (fname f', g f')) fs) = Some (g f).
Proof.
  induction fs as [|f0 r IH]; simpl; [tauto|].
  intros Hnd [-> | Hin].
  - now rewrite String.eqb_refl.
  - inversion Hnd as [|? ? Hk Hr]; subst.
    destruct (String.eqb (fname f0) (fname f)) eqn:E.
    + apply String.eqb_eq in E. exfalso. apply Hk. rewrite E. now apply in_map.
    + now apply IH.
Qed.

Lemma keys_map_fields (g : field -> value) (fs : list field) :
  keys (map (fun f => (fname f, g f)) fs) = map fname fs.
Proof. unfold keys. rewrite map_map. reflexivity. Qed.

Lemma mapM_ok {A B : Type} (f : A -> result B) (g : A -> B) (l : list A) :
  (forall x, In x l -> f x = Ok (g x)) -> mapM f l = Ok (map g l).
Proof.
  induction l as [|x r IH]; simpl; intros H; [reflexivity|].
  rewrite (H x) by now left. simpl.
  rewrite IH by (intros; apply H; now right). reflexivity.
Qed.

Lemma mapM_inv {A B : Type} (f : A -> result B) (l : list A) (r : list B) :
  mapM f l = Ok r -> Forall2 (fun x y => f x = Ok y) l r.
Proof.
  revert r. induction l as [|x l IH]; simpl; intros r H.
  - injection H as <-. constructor.
  - destruct (f x) eqn:Ex; simpl in H; [|discriminate].
    destruct (mapM f l) eqn:El; simpl in H; [|discriminate].
    injection H as <-. constructor; auto.
Qed.

Lemma mapM_raise {A B : Type} (f : A -> result B) (l : list A) (e : exn) :
  mapM f l = Raise e -> exists x, In x l /\ f x = Raise e.
Proof.
  induction l as [|x l IH]; simpl; [discriminate|].
  destruct (f x) eqn:Ex; simpl.
  - destruct (mapM f l) eqn:El; simpl; [discriminate|].
    intros H. injection H as <-.
    destruct IH as [y [Hin Hy]]; [reflexivity|]. exists y. tauto.
  - intros H. injection H as <-. exists x. tauto.
Qed.

Lemma mapM_fails {A B : Type} (f : A -> result B) (l : list A) (x : A) :
  In x l -> (forall b, f x <> Ok b) -> forall r, mapM f l <> Ok r.
Proof.
  intros Hin Hx r H. apply mapM_inv in H.
  induction H as [|y b l' r' Hy _ IH]; simpl in Hin; [contradiction|].
  destruct Hin as [-> | Hin]; [exact (Hx b Hy) | exact (IH Hin)].
Qed.

(** ** Construction *)

Lemma init_field_ok (kwargs : pydict) (f : field) :
  negb (is_required f) || has_key (fname f) kwargs = true ->
  init_field kwargs f = Ok (fname f, bound_value kwargs f).
Proof.
  unfold init_field, bound_value, is_required, has_key.
  destruct (lookup (fname f) kwargs); [reflexivity|].
  destruct (fdefault f); simpl; [discriminate | reflexivity | reflexivity].
Qed.

Lemma init_field_missing (kwargs : pydict) (f : field) :
  negb (is_required f) || has_key (fname f) kwargs = false ->
  init_field kwargs f = Raise TypeError.
Proof.
  unfold init_field, is_required, has_key.
  destruct (lookup (fname f) kwargs);
    [rewrite orb_true_r; discriminate|].
  destruct (fdefault f); simpl; [reflexivity | discriminate | discriminate].
Qed.

Lemma init_field_error (kwargs : pydict) (f : field) (e : exn) :
  init_field kwargs f = Raise e -> e = TypeError.
Proof.
  unfold init_field. destruct (lookup (fname f) kwargs); [discriminate|].
  destruct (fdefault f); congruence.
Qed.

(** A mapping of the right shape is accepted, and the instance holds the
    passed values and the defaults in the order of declaration. *)
Lemma construct_ok (cls : class_name) (kwargs : pydict) :
  shape_ok cls kwargs = true ->
  construct cls kwargs = Ok (Instance cls (bound cls kwargs)).
Proof.
  unfold shape_ok, construct. intros H.
  apply andb_true_iff in H. destruct H as [Hk Hr]. rewrite Hk.
  rewrite (mapM_ok _ (fun f => (fname f, bound_value kwargs f))).
  - reflexivity.
  - intros f Hin. apply init_field_ok.
    rewrite forallb_forall in Hr. now apply Hr.
Qed.

(** Any other mapping is refused with a [TypeError]. *)
Lemma construct_error (cls : class_name) (kwargs : pydict) :
  shape_ok cls kwargs = false -> construct cls kwargs = Raise TypeError.
Proof.
  unfold shape_ok, construct. intros H.
  destruct (forallb (is_field cls) (keys kwargs)); [|reflexivity].
  simpl in H.
  destruct (mapM (init_field kwargs) (fields cls)) as [d|e] eqn:E; simpl.
  - exfalso. apply mapM_inv in E.
    assert (Hall : forallb (fun f => negb (is_required f) || has_key (fname f) kwargs)
                     (fields cls) = true).
    { apply forallb_forall. intros f Hin.
      destruct (negb (is_required f) || has_key (fname f) kwargs) eqn:Ef;
        [reflexivity|].
      apply init_field_missing in Ef.
      clear H. induction E as [|x y l r Hx _ IH]; simpl in Hin; [contradiction|].
      destruct Hin as [-> | Hin]; [congruence | now apply IH]. }
    congruence.
  - apply mapM_raise in E. destruct E as [f [_ Hf]].
    apply init_field_error in Hf. now subst.
Qed.

Lemma construct_inv (cls : class_name) (kwargs : pydict) (o : instance) :
  construct cls kwargs = Ok o ->
  shape_ok cls kwargs = true /\ o = Instance cls (bound cls kwargs).
Proof.
  intros H. destruct (shape_ok cls kwargs) eqn:E.
  - rewrite (construct_ok _ _ E) in H. injection H as <-. tauto.
  - rewrite (construct_error _ _ E) in H. discriminate.
Qed.

Lemma generic_from_dict_inv (cls : class_name) (data : value) (o : instance) :
  BaseModel_from_dict cls data = Ok o ->
  exists kwargs,
    data = VDict kwargs /\ shape_ok cls kwargs = true /\
    o = Instance cls (bound cls kwargs).
Proof.
  destruct data; simpl; try discriminate.
  intros H. apply construct_inv in H. eauto.
Qed.

Lemma generic_from_dict_error (cls : class_name) (data : value) (e : exn) :
  BaseModel_from_dict cls data = Raise e -> e = TypeError.
Proof.
  destruct data; simpl; try congruence.
  intros H. destruct (shape_ok cls entries) eqn:E.
  - rewrite (construct_ok _ _ E) in H. discriminate.
  - rewrite (construct_error _ _ E) in H. congruence.
Qed.

Lemma from_dict_generic (cls : class_name) (data : value) :
  overrides_from_dict cls = false ->
  from_dict cls data = BaseModel_from_dict cls data.
Proof. destruct cls; simpl; intros H; (reflexivity || discriminate). Qed.

Lemma bound_well_formed (cls : class_name) (kwargs : pydict) :
  well_formed (Instance cls (bound cls kwargs)).
Proof. unfold well_formed, bound. simpl. apply keys_map_fields. Qed.

Lemma lookup_bound (cls : class_name) (kwargs : pydict) (f : field) :
  In f (fields cls) ->
  lookup (fname f) (bound cls kwargs) = Some (bound_value kwargs f).
Proof.
  intros Hin. unfold bound.
  apply (lookup_map_fields (bound_value kwargs));
    [apply field_names_unique | assumption].
Qed.

(** ** Serialization *)

Lemma to_dict_unfold (c : class_name) (d : pydict) :
  to_dict (Instance c d) = flat_map to_dict_entry d.
Proof.
  simpl. induction d as [|[k v] r IH]; simpl; [reflexivity|].
  rewrite <- IH. unfold to_dict_entry. simpl.
  destruct v; reflexivity.
Qed.

Lemma to_dict_value_not_none (v : value) :
  to_dict_value v <> VNone \/ v = VNone.
Proof. destruct v; simpl; (now right) || (left; discriminate). Qed.

Lemma keys_flat_map_entry (d : pydict) :
  keys (flat_map to_dict_entry d) =
  keys (filter (fun kv => negb (is_none (snd kv))) d).
Proof.
  induction d as [|[k v] r IH]; simpl; [reflexivity|].
  unfold to_dict_entry at 1. simpl.
  destruct (is_none v); simpl; now rewrite IH.
Qed.

Lemma lookup_to_dict_some (k : string) (v : value) (d : pydict) :
  lookup k d = Some v -> is_none v = false ->
  lookup k (flat_map to_dict_entry d) = Some (to_dict_value v).
Proof.
  induction d as [|[k' w] r IH]; simpl; [discriminate|].
  intros H Hv. unfold to_dict_entry at 1. simpl.
  destruct (String.eqb k' k) eqn:E.
  - injection H as ->. rewrite Hv. simpl. now rewrite E.
  - destruct (is_none w); simpl; [|rewrite E]; now apply IH.
Qed.

Lemma lookup_to_dict_none (k : string) (d : pydict) :
  NoDup (keys d) -> lookup k d = Some VNone ->
  lookup k (flat_map to_dict_entry d) = None.
Proof.
  intros Hnd H. apply lookup_None. rewrite keys_flat_map_entry.
  intros Hin. unfold keys in Hin. apply in_map_iff in Hin.
  destruct Hin as [[k' v] [Hk Hin]]. simpl in Hk. subst k'.
  apply filter_In in Hin. destruct Hin as [Hin Hv]. simpl in Hv.
  apply (In_lookup _ _ _ Hnd) in Hin. rewrite H in Hin.
  injection Hin as <-. discriminate.
Qed.

Lemma keys_to_dict_incl (o : instance) :
  incl (keys (to_dict o)) (keys (dict_of o)).
Proof.
  destruct o as [c d]. rewrite to_dict_unfold, keys_flat_map_entry. simpl.
  intros k Hin. unfold keys in *. apply in_map_iff in Hin.
  destruct Hin as [kv [Hk Hin]]. apply filter_In in Hin.
  apply in_map_iff. exists kv. tauto.
Qed.

Lemma dict_set_fresh (d : pydict) (k : string) (v : value) :
  ~ In k (keys d) -> dict_set d k v = d ++ [(k, v)].
Proof.
  induction d as [|[k' w] r IH]; simpl; intros Hk; [reflexivity|].
  destruct (String.eqb k' k) eqn:E.
  - apply String.eqb_eq in E. tauto.
  - rewrite IH by tauto. reflexivity.
Qed.

(** On a [__dict__], whose keys are distinct, the assignments of the loop
    only ever add entries: [to_dict] is the loop. *)
Lemma to_dict_is_loop (c : class_name) (d : pydict) :
  NoDup (keys d) -> to_dict (Instance c d) = to_dict_loop d.
Proof.
  intros Hnd. rewrite to_dict_unfold. unfold to_dict_loop.
  change (flat_map to_dict_entry d) with ([] ++ flat_map to_dict_entry d).
  assert (Hacc : forall x, In x (keys (@nil (string * value))) -> ~ In x (keys d))
    by (intros x []).
  revert Hacc. generalize (@nil (string * value)) as acc.
  induction d as [|[k v] r IH]; intros acc Hacc; simpl.
  - now rewrite app_nil_r.
  - inversion Hnd as [|? ? Hk Hr]; subst.
    unfold to_dict_entry at 1. simpl. destruct (is_none v) eqn:Ev; simpl.
    + apply IH; [assumption|]. intros x Hx Hin. apply (Hacc x Hx). now right.
    + rewrite dict_set_fresh.
      * rewrite <- IH; [now rewrite <- app_assoc | assumption |].
        intros x Hx Hin. unfold keys in Hx. rewrite map_app in Hx.
        apply in_app_or in Hx. destruct Hx as [Hx | [<- | []]].
        -- apply (Hacc x Hx). now right.
        -- exact (Hk Hin).
      * intros Hin. apply (Hacc k Hin). now left.
Qed.

(** ** Equality *)

Lemma forallb_pointwise {A : Type} (f g : A -> bool) (l : list A) :
  (forall x, f x = g x) -> forallb f l = forallb g l.
Proof.
  intros H. induction l as [|x r IH]; simpl; [reflexivity|].
  now rewrite H, IH.
Qed.

Lemma dataclass_eq_unfold (c c' : class_name) (d d' : pydict) :
  dataclass_eq (Instance c d) (Instance c' d') =
  class_eqb c c' && forallb (attr_eq d d') (field_names c).
Proof.
  simpl. f_equal. apply forallb_pointwise. intros name. unfold attr_eq.
  induction d as [|[k v] r IH]; simpl; [reflexivity|].
  destruct (String.eqb k name); [reflexivity | exact IH].
Qed.

Lemma py_eq_list (l l' : list value) :
  py_eq (VList l) (VList l') = true <->
  Forall2 (fun x y => py_eq x y = true) l l'.
Proof.
  simpl. revert l'. induction l as [|x r IH]; intros [|y r']; split; intros H;
    try discriminate; try constructor; try solve [inversion H].
  - apply andb_true_iff in H. tauto.
  - apply andb_true_iff in H. apply IH. tauto.
  - inversion H; subst. apply andb_true_iff. split; [assumption|].
    now apply IH.
Qed.

Lemma py_eq_dict (d d' : pydict) :
  py_eq (VDict d) (VDict d') =
  Nat.eqb (List.length d) (List.length d') &&
  forallb
    (fun kv =>
       match lookup (fst kv) d' with
       | Some w => py_eq (snd kv) w
       | None => false
       end) d.
Proof.
  simpl. f_equal. induction d as [|[k v] r IH]; simpl; [reflexivity|].
  now rewrite IH.
Qed.

Lemma class_eqb_refl (c : class_name) : class_eqb c c = true.
Proof. destruct c; reflexivity. Qed.

Lemma float_eq_refl (x : spec_float) : is_nan x = false -> float_eq x x = true.
Proof.
  destruct x as [s | s | | s m e]; simpl; try discriminate; intros _.
  - reflexivity.
  - apply Bool.eqb_reflx.
  - rewrite Bool.eqb_reflx, Z.eqb_refl. reflexivity.
Qed.

(** On plain data [==] is reflexive. *)
Lemma plain_eq_refl (v : value) : plain v = true -> py_eq v v = true.
Proof.
  induction v as [| b | n | s | e | l IH | d IH | c d IH | x] using value_ind;
    intros Hp; try reflexivity.
  - simpl. now destruct b.
  - simpl. apply Z.eqb_refl.
  - simpl. apply String.eqb_refl.
  - simpl. apply String.eqb_refl.
  - apply py_eq_list. simpl in Hp. rewrite forallb_forall in Hp.
    induction IH as [|x r Hx _ IHr]; constructor.
    + apply Hx, Hp. now left.
    + apply IHr. intros y Hy. apply Hp. now right.
  - rewrite py_eq_dict, Nat.eqb_refl. simpl in Hp.
    apply andb_true_iff in Hp. destruct Hp as [Hu Hp].
    apply unique_NoDup in Hu. rewrite forallb_forall in Hp.
    apply forallb_forall. intros [k v] Hin. simpl.
    rewrite (In_lookup _ _ _ Hu Hin).
    rewrite Forall_forall in IH. apply (IH (k, v) Hin).
    exact (Hp (k, v) Hin).
  - discriminate.
  - simpl in Hp. apply float_eq_refl. now destruct (is_nan x).
Qed.

Lemma plain_to_dict_item (v : value) : plain v = true -> to_dict_item v = v.
Proof. destruct v; simpl; congruence. Qed.

(** What [to_dict] stores for plain data is equal to the data. *)
Lemma plain_to_dict_value (v : value) :
  plain v = true -> py_eq (to_dict_value v) v = true.
Proof.
  intros Hp. destruct v; try (now apply plain_eq_refl); try discriminate.
  - simpl. apply String.eqb_refl.
  - simpl to_dict_value.
    replace (map to_dict_item items) with items; [now apply plain_eq_refl|].
    simpl in Hp. rewrite forallb_forall in Hp.
    induction items as [|x r IH]; simpl; [reflexivity|].
    rewrite plain_to_dict_item by (apply Hp; now left).
    f_equal. apply IH. intros y Hy. apply Hp. now right.
Qed.

(** ** The generic round trip *)

Lemma field_by_name (cls : class_name) (f f' : field) :
  In f (fields cls) -> In f' (fields cls) -> fname f = fname f' -> f = f'.
Proof.
  pose proof (field_names_unique cls) as Hnd. unfold field_names in Hnd.
  induction (fields cls) as [|f0 r IH]; simpl; [tauto|].
  inversion Hnd as [|? ? Hk Hr]; subst.
  intros [-> | Hin] [-> | Hin'] Heq; auto.
  - exfalso. apply Hk. rewrite Heq. now apply in_map.
  - exfalso. apply Hk. rewrite <- Heq. now apply in_map.
Qed.

Lemma default_is_none_field (cls : class_name) (f : field) :
  In f (fields cls) -> default_is_none cls (fname f) = true ->
  fdefault f = Default VNone.
Proof.
  intros Hin H. unfold default_is_none in H.
  apply existsb_exists in H. destruct H as [f' [Hin' H]].
  apply andb_true_iff in H. destruct H as [Hn Hd].
  apply String.eqb_eq in Hn.
  rewrite (field_by_name cls f f' Hin Hin' (eq_sym Hn)).
  destruct (fdefault f') as [|[]|]; try discriminate. reflexivity.
Qed.

Lemma field_default_is_none (cls : class_name) (f : field) :
  In f (fields cls) -> fdefault f = Default VNone ->
  default_is_none cls (fname f) = true.
Proof.
  intros Hin Hd. unfold default_is_none. apply existsb_exists.
  exists f. split; [assumption|]. now rewrite String.eqb_refl, Hd.
Qed.

Section GenericRoundTrip.

Variable cls : class_name.
Variable d : pydict.
Hypothesis Hwf : keys d = field_names cls.
Hypothesis Hplain : plain_dict d = true.
Hypothesis Hlossless : lossless (Instance cls d) = true.

Lemma round_trip_field (f : field) :
  In f (fields cls) ->
  exists v,
    lookup (fname f) d = Some v /\
    ((v = VNone /\ lookup (fname f) (flat_map to_dict_entry d) = None /\ fdefault f = Default VNone) \/
     (is_none v = false /\ plain v = true /\
      lookup (fname f) (flat_map to_dict_entry d) = Some (to_dict_value v))).
Proof.
  intros Hin.
  destruct (lookup_Some_key (fname f) d) as [v Hv].
  { rewrite Hwf. unfold field_names. now apply in_map. }
  exists v. split; [assumption|].
  pose proof (lookup_In _ _ _ Hv) as Hmem.
  destruct (is_none v) eqn:Ev.
  - left. destruct v; try discriminate. split; [reflexivity|]. split.
    + apply lookup_to_dict_none; [|assumption].
      rewrite Hwf. apply field_names_unique.
    + apply (default_is_none_field cls); [assumption|].
      pose proof Hlossless as Hl. unfold lossless in Hl.
      rewrite forallb_forall in Hl. exact (Hl _ Hmem).
  - right. split; [reflexivity|]. split.
    + pose proof Hplain as Hp. unfold plain_dict in Hp.
      rewrite forallb_forall in Hp. exact (Hp _ Hmem).
    + now apply lookup_to_dict_some.
Qed.

Lemma round_trip_shape : shape_ok cls (flat_map to_dict_entry d) = true.
Proof.
  unfold shape_ok. apply andb_true_iff. split.
  - apply forallb_forall. intros k Hk. apply is_field_In.
    rewrite <- Hwf. apply (keys_to_dict_incl (Instance cls d)).
    now rewrite to_dict_unfold.
  - apply forallb_forall. intros f Hin.
    destruct (round_trip_field f Hin) as [v [_ [[_ [_ Hd]] | [_ [_ Hk]]]]].
    + unfold is_required. now rewrite Hd.
    + unfold has_key. rewrite Hk. apply orb_true_r.
Qed.

Lemma round_trip_equal :
  dataclass_eq (Instance cls (bound cls (flat_map to_dict_entry d))) (Instance cls d) = true.
Proof.
  rewrite dataclass_eq_unfold, class_eqb_refl. simpl.
  apply forallb_forall. intros name Hname.
  unfold field_names in Hname. apply in_map_iff in Hname.
  destruct Hname as [f [<- Hin]].
  unfold attr_eq. rewrite (lookup_bound cls (flat_map to_dict_entry d) f Hin).
  destruct (round_trip_field f Hin)
    as [v [Hv [[-> [Hk Hd]] | [_ [Hp Hk]]]]]; rewrite Hv.
  - unfold bound_value. now rewrite Hk, Hd.
  - unfold bound_value. rewrite Hk. now apply plain_to_dict_value.
Qed.

Lemma generic_round_trip :
  BaseModel_from_dict cls (VDict (to_dict (Instance cls d))) =
    Ok (Instance cls (bound cls (flat_map to_dict_entry d))) /\
  py_eq (VObj (Instance cls (bound cls (flat_map to_dict_entry d)))) (VObj (Instance cls d)) = true.
Proof.
  split.
  - unfold BaseModel_from_dict. rewrite to_dict_unfold.
    apply construct_ok, round_trip_shape.
  - apply round_trip_equal.
Qed.

End GenericRoundTrip.

Lemma py_eq_none (v : value) : py_eq v VNone = true -> v = VNone.
Proof. destruct v; simpl; congruence. Qed.

(** The condition on [None] is as weak as it can be: a record of which
    the round trip succeeds and gives an equal record is lossless. *)
Lemma generic_round_trip_only_if (cls : class_name) (d : pydict) (o' : instance) :
  keys d = field_names cls ->
  BaseModel_from_dict cls (VDict (to_dict (Instance cls d))) = Ok o' ->
  py_eq (VObj o') (VObj (Instance cls d)) = true ->
  lossless (Instance cls d) = true.
Proof.
  intros Hwf Hok Heq. unfold BaseModel_from_dict in Hok.
  rewrite to_dict_unfold in Hok. apply construct_inv in Hok.
  destruct Hok as [Hshape ->].
  change (dataclass_eq (Instance cls (bound cls (flat_map to_dict_entry d)))
            (Instance cls d) = true) in Heq.
  rewrite dataclass_eq_unfold, class_eqb_refl in Heq. simpl in Heq.
  rewrite forallb_forall in Heq.
  unfold lossless. apply forallb_forall. intros [k v] Hin. simpl.
  destruct (is_none v) eqn:Ev; [simpl | reflexivity].
  destruct v; try discriminate.
  assert (Hnd : NoDup (keys d)) by (rewrite Hwf; apply field_names_unique).
  pose proof (In_lookup _ _ _ Hnd Hin) as Hk.
  assert (Hname : In k (field_names cls)).
  { rewrite <- Hwf. unfold keys. change k with (fst (k, VNone)). now apply in_map. }
  specialize (Heq k Hname). unfold field_names in Hname.
  apply in_map_iff in Hname. destruct Hname as [f [<- Hf]].
  unfold attr_eq in Heq. rewrite (lookup_bound cls _ f Hf), Hk in Heq.
  apply py_eq_none in Heq. unfold bound_value in Heq.
  rewrite (lookup_to_dict_none _ _ Hnd Hk) in Heq.
  unfold shape_ok in Hshape. apply andb_true_iff in Hshape.
  destruct Hshape as [_ Hreq]. rewrite forallb_forall in Hreq.
  specialize (Hreq f Hf). unfold is_required, has_key in Hreq.
  rewrite (lookup_to_dict_none _ _ Hnd Hk) in Hreq.
  apply field_default_is_none; [assumption|].
  destruct (fdefault f); try discriminate. now subst.
Qed.

(** * The properties *)

(** ** C1: the generic round trip *)

(** C1, as the code has it: let R be a record of a class that uses the
    generic [from_dict], left by the constructor with exactly its declared
    attributes, holding plain data only (no nested record), in which no
    attribute is [None] unless [None] is its declared default.  Then
    [from_dict(to_dict(R))] succeeds and its result is equal ([==]) to R. *)
Theorem generic_round_trip_equal (o : instance) :
  overrides_from_dict (class_of o) = false ->
  well_formed o ->
  plain_dict (dict_of o) = true ->
  lossless o = true ->
  exists o',
    from_dict (class_of o) (VDict (to_dict o)) = Ok o' /\
    py_eq (VObj o') (VObj o) = true.
Proof.
  destruct o as [cls d]. simpl class_of. simpl dict_of.
  intros Hgen Hwf Hplain Hloss.
  rewrite (from_dict_generic _ _ Hgen).
  destruct (generic_round_trip cls d Hwf Hplain Hloss) as [Hok Heq].
  eauto.
Qed.

Lemma generic_round_trip_equal_witness :
  exists o',
    from_dict SecretTag (VDict (to_dict sample_tag)) = Ok o' /\
    py_eq (VObj o') (VObj sample_tag) = true.
Proof.
  apply (generic_round_trip_equal sample_tag); reflexivity.
Defined.

(** C1 fails as stated: a secret whose [skipMultilineEncoding] is [None]
    (a value its annotation [Optional[bool]] allows, with empty list
    fields and JSON primitives elsewhere) comes back from the round trip
    with [skipMultilineEncoding = False], and is not equal to the
    original. *)
Lemma generic_round_trip_loses_null_flag :
  from_dict BaseSecret null_flag_raw = Ok null_flag_secret /\
  well_formed null_flag_secret /\
  well_typed null_flag_secret = true /\
  plain_dict (dict_of null_flag_secret) = true /\
  getattr null_flag_secret "secretMetadata" = Some (VList []) /\
  getattr null_flag_secret "tags" = Some (VList []) /\
  from_dict BaseSecret (VDict (to_dict null_flag_secret)) = Ok minimal_secret /\
  py_eq (VObj minimal_secret) (VObj null_flag_secret) = false.
Proof. repeat split; reflexivity. Qed.

(** ** C2: the generic [from_dict] does not convert nested mappings *)

(** C2: when the generic [from_dict] accepts a mapping, every entry of the
    mapping is the value of the attribute of that name, unchanged; a raw
    nested mapping stays a mapping and is not turned into an instance. *)
Theorem generic_from_dict_keeps_raw
  (cls : class_name) (kwargs : pydict) (o : instance) (k : string) (v : value) :
  overrides_from_dict cls = false ->
  from_dict cls (VDict kwargs) = Ok o ->
  lookup k kwargs = Some v ->
  getattr o k = Some v.
Proof.
  intros Hgen Hok Hk. rewrite (from_dict_generic _ _ Hgen) in Hok.
  apply generic_from_dict_inv in Hok.
  destruct Hok as [kw [Heq [Hshape ->]]]. injection Heq as <-.
  unfold shape_ok in Hshape. apply andb_true_iff in Hshape.
  destruct Hshape as [Hkeys _]. rewrite forallb_forall in Hkeys.
  assert (Hin : In k (field_names cls)).
  { apply is_field_In, Hkeys. apply lookup_In in Hk.
    unfold keys. change k with (fst (k, v)). now apply in_map. }
  unfold field_names in Hin. apply in_map_iff in Hin.
  destruct Hin as [f [<- Hf]].
  unfold getattr. simpl dict_of. rewrite (lookup_bound cls kwargs f Hf).
  unfold bound_value. now rewrite Hk.
Qed.

Lemma generic_from_dict_keeps_raw_witness :
  from_dict Import (VDict import_raw) = Ok raw_import /\
  getattr raw_import "secrets" = Some (VList [VDict required_only]).
Proof.
  split; [reflexivity|].
  apply (generic_from_dict_keeps_raw Import import_raw raw_import "secrets");
    reflexivity.
Defined.

(** ** C3: the round trip of the response envelopes *)

Lemma default_plain (cls : class_name) (f : field) (v : value) :
  In f (fields cls) -> fdefault f = Default v -> plain v = true.
Proof.
  intros Hin Hd.
  assert (Hall : forallb
                   (fun f' => match fdefault f' with
                              | Default w => plain w
                              | _ => true
                              end) (fields cls) = true)
    by (destruct cls; reflexivity).
  rewrite forallb_forall in Hall. specialize (Hall f Hin).
  now rewrite Hd in Hall.
Qed.

Lemma plain_lookup (k : string) (d : pydict) (v : value) :
  plain (VDict d) = true -> lookup k d = Some v -> plain v = true.
Proof.
  simpl. intros Hp Hk. apply andb_true_iff in Hp. destruct Hp as [_ Hp].
  rewrite forallb_forall in Hp. apply lookup_In in Hk.
  exact (Hp (k, v) Hk).
Qed.

Lemma plain_iter (v : value) (l : list value) :
  plain v = true -> py_iter v = Ok l -> Forall (fun x => plain x = true) l.
Proof.
  destruct v; simpl; try discriminate; intros Hp H; injection H as <-.
  - unfold chars. apply Forall_forall. intros x Hx.
    apply in_map_iff in Hx. destruct Hx as [c [<- _]]. reflexivity.
  - unfold chars. apply Forall_forall. intros x Hx.
    apply in_map_iff in Hx. destruct Hx as [c [<- _]]. reflexivity.
  - apply Forall_forall. now apply forallb_forall.
  - apply Forall_forall. intros x Hx.
    apply in_map_iff in Hx. destruct Hx as [c [<- _]]. reflexivity.
Qed.

(** What the generic [from_dict] builds from plain data. *)
Lemma generic_from_dict_plain (cls : class_name) (data : value) (o : instance) :
  plain data = true ->
  BaseModel_from_dict cls data = Ok o ->
  class_of o = cls /\ well_formed o /\ plain_dict (dict_of o) = true.
Proof.
  intros Hp Hok. apply generic_from_dict_inv in Hok.
  destruct Hok as [kw [-> [_ ->]]].
  split; [reflexivity|]. split; [apply bound_well_formed|].
  simpl dict_of. unfold plain_dict, bound. apply forallb_forall.
  intros kv Hin. apply in_map_iff in Hin. destruct Hin as [f [<- Hf]].
  simpl. unfold bound_value.
  destruct (lookup (fname f) kw) as [v|] eqn:Ek.
  - exact (plain_lookup _ _ _ Hp Ek).
  - destruct (fdefault f) eqn:Ed; try reflexivity.
    exact (default_plain cls f _ Hf Ed).
Qed.

Lemma mapM_from_dict_plain (cls : class_name) (raws : list value) (l : list instance) :
  Forall (fun x => plain x = true) raws ->
  mapM (BaseModel_from_dict cls) raws = Ok l ->
  Forall
    (fun o => class_of o = cls /\ well_formed o /\ plain_dict (dict_of o) = true) l.
Proof.
  intros Hp Hok. apply mapM_inv in Hok.
  induction Hok as [|x o raws' l' Hx _ IH]; constructor.
  - apply (generic_from_dict_plain cls x); [|assumption].
    now inversion Hp.
  - apply IH. now inversion Hp.
Qed.

(** A list of instances that each survive the generic round trip. *)
Lemma mapM_round_trip (cls : class_name) (l : list instance) :
  Forall
    (fun o => class_of o = cls /\ well_formed o /\ plain_dict (dict_of o) = true) l ->
  forallb lossless l = true ->
  exists l',
    mapM (BaseModel_from_dict cls) (map (fun o => VDict (to_dict o)) l) = Ok l' /\
    py_eq (VList (map VObj l')) (VList (map VObj l)) = true.
Proof.
  induction 1 as [|o r [Hc [Hwf Hp]] _ IH]; simpl forallb; intros Hl.
  - exists []. split; reflexivity.
  - apply andb_true_iff in Hl. destruct Hl as [Ho Hr].
    destruct (IH Hr) as [r' [Hok Heq]].
    destruct o as [c d]. simpl in Hc. subst c.
    destruct (generic_round_trip cls d Hwf Hp Ho) as [Hok1 Heq1].
    eexists. split.
    + cbn [map mapM]. rewrite Hok1. cbn [bind]. rewrite Hok. reflexivity.
    + apply py_eq_list. simpl map. constructor; [exact Heq1|].
      now apply py_eq_list.
Qed.

(** The steps of a successful [ListSecretsResponse.from_dict]. *)
Lemma list_secrets_from_dict_inv (data : value) (x : instance) :
  ListSecretsResponse_from_dict data = Ok x ->
  exists kvs sv raws secrets iv imps imports,
    data = VDict kvs /\
    lookup "secrets" kvs = Some sv /\
    py_iter sv = Ok raws /\
    mapM (BaseModel_from_dict BaseSecret) raws = Ok secrets /\
    iv = match lookup "imports" kvs with Some v => v | None => VList [] end /\
    py_iter iv = Ok imps /\
    mapM (BaseModel_from_dict Import) imps = Ok imports /\
    x = list_secrets_response secrets imports.
Proof.
  unfold ListSecretsResponse_from_dict. intros H.
  destruct data as [| | | | | | kvs | |]; try discriminate.
  simpl getitem in H. destruct (lookup "secrets" kvs) as [sv|] eqn:Es;
    [|discriminate].
  cbn [bind] in H.
  destruct (py_iter sv) as [raws|] eqn:Er; [|discriminate]. cbn [bind] in H.
  destruct (mapM (BaseModel_from_dict BaseSecret) raws) as [secrets|] eqn:Em;
    [|discriminate].
  cbn [bind] in H. simpl dict_get in H.
  set (iv := match lookup "imports" kvs with Some v => v | None => VList [] end).
  assert (Hget : match lookup "imports" kvs with
                 | Some v => Ok v
                 | None => Ok (VList [])
                 end = Ok iv) by (unfold iv; now destruct (lookup "imports" kvs)).
  rewrite Hget in H. cbn [bind] in H.
  destruct (py_iter iv) as [imps|] eqn:Ei; [|discriminate]. cbn [bind] in H.
  destruct (mapM (BaseModel_from_dict Import) imps) as [imports|] eqn:Emi;
    [|discriminate].
  cbn [bind] in H.
  exists kvs, sv, raws, secrets, iv, imps, imports.
  repeat (split; [first [reflexivity | assumption]|]).
  change (Ok (list_secrets_response secrets imports) = Ok x) in H.
  now injection H.
Qed.

Lemma list_secrets_from_dict_ok
  (kvs : pydict) (sv : value) (raws : list value) (secrets : list instance)
  (imps : list value) (imports : list instance) :
  lookup "secrets" kvs = Some sv ->
  py_iter sv = Ok raws ->
  mapM (BaseModel_from_dict BaseSecret) raws = Ok secrets ->
  py_iter (match lookup "imports" kvs with Some v => v | None => VList [] end) =
    Ok imps ->
  mapM (BaseModel_from_dict Import) imps = Ok imports ->
  ListSecretsResponse_from_dict (VDict kvs) =
    Ok (list_secrets_response secrets imports).
Proof.
  intros Hs Hr Hm Hi Hmi. unfold ListSecretsResponse_from_dict.
  simpl getitem. rewrite Hs. cbn [bind]. rewrite Hr. cbn [bind].
  rewrite Hm. cbn [bind]. simpl dict_get.
  destruct (lookup "imports" kvs); cbn [bind]; rewrite Hi; cbn [bind];
    rewrite Hmi; reflexivity.
Qed.

(** The steps of a successful [SingleSecretResponse.from_dict]. *)
Lemma single_secret_from_dict_inv (data : value) (x : instance) :
  SingleSecretResponse_from_dict data = Ok x ->
  exists kvs raw secret,
    data = VDict kvs /\
    lookup "secret" kvs = Some raw /\
    BaseModel_from_dict BaseSecret raw = Ok secret /\
    x = single_secret_response secret.
Proof.
  unfold SingleSecretResponse_from_dict. intros H.
  destruct data as [| | | | | | kvs | |]; try discriminate.
  simpl getitem in H. destruct (lookup "secret" kvs) as [raw|] eqn:Es;
    [|discriminate].
  cbn [bind] in H.
  destruct (BaseModel_from_dict BaseSecret raw) as [secret|] eqn:Eb;
    [|discriminate].
  cbn [bind] in H. exists kvs, raw, secret.
  repeat (split; [first [reflexivity | assumption]|]).
  change (Ok (single_secret_response secret) = Ok x) in H.
  now injection H.
Qed.

Lemma to_dict_list_secrets (secrets imports : list instance) :
  to_dict (list_secrets_response secrets imports) =
  [ ("secrets", VList (map (fun o => VDict (to_dict o)) secrets));
    ("imports", VList (map (fun o => VDict (to_dict o)) imports)) ].
Proof.
  unfold list_secrets_response. rewrite to_dict_unfold.
  unfold to_dict_entry. simpl. now rewrite !map_map.
Qed.

Lemma held_list_secrets (secrets imports : list instance) :
  held_instances (list_secrets_response secrets imports) = secrets ++ imports.
Proof.
  assert (Hflat : forall l : list instance,
             flat_map (fun v => match v with VObj i => [i] | _ => [] end)
               (map VObj l) = l).
  { induction l as [|o r IH]; simpl; [reflexivity | now rewrite IH]. }
  unfold held_instances. simpl. now rewrite !Hflat, app_nil_r.
Qed.

Lemma list_secrets_eq (secrets' imports' secrets imports : list instance) :
  py_eq (VList (map VObj secrets')) (VList (map VObj secrets)) = true ->
  py_eq (VList (map VObj imports')) (VList (map VObj imports)) = true ->
  py_eq (VObj (list_secrets_response secrets' imports'))
        (VObj (list_secrets_response secrets imports)) = true.
Proof.
  intros Hs Hi.
  change (dataclass_eq (list_secrets_response secrets' imports')
                       (list_secrets_response secrets imports) = true).
  unfold list_secrets_response. rewrite dataclass_eq_unfold.
  change (forallb
            (attr_eq
               [("secrets", VList (map VObj secrets'));
                ("imports", VList (map VObj imports'))]
               [("secrets", VList (map VObj secrets));
                ("imports", VList (map VObj imports))])
            ["secrets"; "imports"] = true).
  cbn [forallb]. unfold attr_eq.
  change (py_eq (VList (map VObj secrets')) (VList (map VObj secrets)) &&
          (py_eq (VList (map VObj imports')) (VList (map VObj imports)) && true)
          = true).
  now rewrite Hs, Hi.
Qed.

Lemma single_secret_eq (secret' secret : instance) :
  py_eq (VObj secret') (VObj secret) = true ->
  py_eq (VObj (single_secret_response secret'))
        (VObj (single_secret_response secret)) = true.
Proof.
  intros Hs.
  change (dataclass_eq (single_secret_response secret')
                       (single_secret_response secret) = true).
  unfold single_secret_response. rewrite dataclass_eq_unfold.
  change (py_eq (VObj secret') (VObj secret) && true = true).
  now rewrite Hs.
Qed.

(** C3, as the code has it: let x be a [ListSecretsResponse] or a
    [SingleSecretResponse] built by its own [from_dict] from plain decoded
    data, such that no secret or import held by x has an attribute at
    [None] unless [None] is the declared default of that attribute.  Then
    [to_dict] followed by the same [from_dict] succeeds and its result is
    equal ([==]) to x. *)
Theorem envelope_round_trip_equal (cls : class_name) (data : value) (x : instance) :
  overrides_from_dict cls = true ->
  plain data = true ->
  from_dict cls data = Ok x ->
  nested_lossless x = true ->
  exists x',
    from_dict cls (VDict (to_dict x)) = Ok x' /\
    py_eq (VObj x') (VObj x) = true.
Proof.
  intros Hov Hplain Hok Hloss. destruct cls; try discriminate; simpl from_dict in *.
  - apply list_secrets_from_dict_inv in Hok.
    destruct Hok as (kvs & sv & raws & secrets & iv & imps & imports &
                     -> & Hs & Hr & Hm & -> & Hi & Hmi & ->).
    assert (Hsv : plain sv = true) by exact (plain_lookup _ _ _ Hplain Hs).
    assert (Hiv : plain (match lookup "imports" kvs with
                         | Some v => v
                         | None => VList []
                         end) = true).
    { destruct (lookup "imports" kvs) eqn:E; [|reflexivity].
      exact (plain_lookup _ _ _ Hplain E). }
    pose proof (mapM_from_dict_plain _ _ _ (plain_iter _ _ Hsv Hr) Hm) as Hsec.
    pose proof (mapM_from_dict_plain _ _ _ (plain_iter _ _ Hiv Hi) Hmi) as Himp.
    unfold nested_lossless in Hloss. rewrite held_list_secrets in Hloss.
    rewrite forallb_app in Hloss. apply andb_true_iff in Hloss.
    destruct Hloss as [Hls Hli].
    destruct (mapM_round_trip _ _ Hsec Hls) as [secrets' [Hok1 Heq1]].
    destruct (mapM_round_trip _ _ Himp Hli) as [imports' [Hok2 Heq2]].
    exists (list_secrets_response secrets' imports'). split.
    + rewrite to_dict_list_secrets.
      eapply list_secrets_from_dict_ok;
        [reflexivity | reflexivity | exact Hok1 | reflexivity | exact Hok2].
    + now apply list_secrets_eq.
  - apply single_secret_from_dict_inv in Hok.
    destruct Hok as (kvs & raw & secret & -> & Hs & Hb & ->).
    assert (Hraw : plain raw = true) by exact (plain_lookup _ _ _ Hplain Hs).
    destruct (generic_from_dict_plain _ _ _ Hraw Hb) as [Hc [Hwf Hp]].
    unfold nested_lossless in Hloss. simpl in Hloss.
    rewrite andb_true_r in Hloss.
    destruct secret as [c d]. simpl in Hc. subst c.
    destruct (generic_round_trip BaseSecret d Hwf Hp Hloss) as [Hok1 Heq1].
    exists (single_secret_response (Instance BaseSecret
                                      (bound BaseSecret (flat_map to_dict_entry d)))).
    split.
    + unfold SingleSecretResponse_from_dict, single_secret_response.
      rewrite to_dict_unfold.
      change (flat_map to_dict_entry [("secret", VObj (Instance BaseSecret d))])
        with [("secret", VDict (to_dict (Instance BaseSecret d)))].
      change (getitem (VDict [("secret", VDict (to_dict (Instance BaseSecret d)))])
                "secret")
        with (@Ok value (VDict (to_dict (Instance BaseSecret d)))).
      cbn [bind]. rewrite Hok1. reflexivity.
    + now apply single_secret_eq.
Qed.

Lemma envelope_round_trip_equal_witness :
  from_dict ListSecretsResponse list_response_raw =
    Ok (list_secrets_response [minimal_secret] [raw_import]) /\
  exists x',
    from_dict ListSecretsResponse
      (VDict (to_dict (list_secrets_response [minimal_secret] [raw_import]))) =
      Ok x' /\
    py_eq (VObj x') (VObj (list_secrets_response [minimal_secret] [raw_import])) =
      true.
Proof.
  split; [reflexivity|].
  apply (envelope_round_trip_equal ListSecretsResponse list_response_raw);
    reflexivity.
Defined.

(** C3 fails as stated: a response whose secret arrives with
    ["skipMultilineEncoding": null] is built by the dedicated [from_dict],
    and its round trip yields a response whose secret has
    [skipMultilineEncoding = False]; the two are not equal.  The same
    holds for both envelopes. *)
Lemma envelope_round_trip_loses_null_flag :
  from_dict SingleSecretResponse (VDict [("secret", null_flag_raw)]) =
    Ok (single_secret_response null_flag_secret) /\
  from_dict SingleSecretResponse
    (VDict (to_dict (single_secret_response null_flag_secret))) =
    Ok (single_secret_response minimal_secret) /\
  py_eq (VObj (single_secret_response minimal_secret))
        (VObj (single_secret_response null_flag_secret)) = false /\
  from_dict ListSecretsResponse (VDict [("secrets", VList [null_flag_raw])]) =
    Ok (list_secrets_response [null_flag_secret] []) /\
  from_dict ListSecretsResponse
    (VDict (to_dict (list_secrets_response [null_flag_secret] []))) =
    Ok (list_secrets_response [minimal_secret] []) /\
  py_eq (VObj (list_secrets_response [minimal_secret] []))
        (VObj (list_secrets_response [null_flag_secret] [])) = false.
Proof. repeat split; reflexivity. Qed.

(** The data has to be plain: a tag instance passed inside the data is
    serialized as a mapping and stays one after the second [from_dict]. *)
Lemma envelope_round_trip_needs_plain_data :
  exists x x',
    from_dict SingleSecretResponse (VDict [("secret", tagged_raw)]) = Ok x /\
    from_dict SingleSecretResponse (VDict (to_dict x)) = Ok x' /\
    py_eq (VObj x') (VObj x) = false.
Proof. do 2 eexists. repeat split; reflexivity. Qed.

(** ** C4: [to_dict] omits the attributes that are [None] *)

(** C4: the keys of [to_dict()] are the names of the attributes that are
    not [None], in their order; no entry of the result is [None]; and the
    secret built from the required wire fields alone serializes without
    [secretReminderNote], [secretReminderRepeatDays], [metadata] and
    [secretPath], and with [skipMultilineEncoding: false],
    [secretMetadata: []] and [tags: []]. *)
Theorem to_dict_omits_none :
  (forall o : instance,
     keys (to_dict o) =
       keys (filter (fun kv => negb (is_none (snd kv))) (dict_of o)) /\
     Forall (fun kv => snd kv <> VNone) (to_dict o)) /\
  from_dict BaseSecret (VDict required_only) = Ok minimal_secret /\
  to_dict minimal_secret =
    required_only ++
    [ ("skipMultilineEncoding", VBool false);
      ("secretMetadata", VList []);
      ("tags", VList []) ].
Proof.
  split; [|split; reflexivity].
  intros [c d]. rewrite to_dict_unfold. simpl dict_of. split.
  - apply keys_flat_map_entry.
  - apply Forall_forall. intros kv Hin. apply in_flat_map in Hin.
    destruct Hin as [[k v] [_ Hin]]. unfold to_dict_entry in Hin. simpl in Hin.
    destruct (is_none v) eqn:Ev; [contradiction|].
    destruct Hin as [<- | []]. simpl.
    destruct (to_dict_value_not_none v) as [H | ->]; [assumption | discriminate].
Qed.

(** ** C9: an enumeration member is serialized as its value *)

(** C9: when an attribute of a record holds a member of the enumeration,
    [to_dict()] has under that name the string value of the member, not
    the member: ["open"] for [OPEN], ["approved"] for [APPROVED] and
    ["rejected"] for [REJECTED]. *)
Theorem to_dict_enum_value (o : instance) (name : string) (e : ApprovalStatus) :
  getattr o name = Some (VEnum e) ->
  lookup name (to_dict o) =
    Some (VStr match e with
               | OPEN => "open"
               | APPROVED => "approved"
               | REJECTED => "rejected"
               end).
Proof.
  destruct o as [c d]. unfold getattr. simpl dict_of. intros H.
  rewrite to_dict_unfold.
  rewrite (lookup_to_dict_some name (VEnum e) d H eq_refl).
  destruct e; reflexivity.
Qed.

Lemma to_dict_enum_value_witness :
  construct BaseSecret (required_only ++ [("metadata", VEnum APPROVED)]) =
    Ok approved_secret /\
  lookup "metadata" (to_dict approved_secret) = Some (VStr "approved") /\
  from_dict SecretMetadata (VDict [("key", VEnum OPEN); ("value", VEnum REJECTED)]) =
    Ok status_metadata /\
  lookup "key" (to_dict status_metadata) = Some (VStr "open") /\
  lookup "value" (to_dict status_metadata) = Some (VStr "rejected").
Proof.
  split; [reflexivity|]. split; [|split; [reflexivity|split]].
  - apply (to_dict_enum_value approved_secret "metadata" APPROVED). reflexivity.
  - apply (to_dict_enum_value status_metadata "key" OPEN). reflexivity.
  - apply (to_dict_enum_value status_metadata "value" REJECTED). reflexivity.
Defined.

(** ** C5: mappings of the wrong shape *)

Lemma wrong_shape (cls : class_name) (kwargs : pydict) :
  unexpected_key cls kwargs \/ missing_required cls kwargs ->
  shape_ok cls kwargs = false.
Proof.
  intros H. destruct (shape_ok cls kwargs) eqn:E; [exfalso | reflexivity].
  unfold shape_ok in E. apply andb_true_iff in E. destruct E as [Hk Hr].
  rewrite forallb_forall in Hk, Hr.
  destruct H as [[k [Hin Hnot]] | [f [Hin [Hreq Hnone]]]].
  - apply Hnot, is_field_In, Hk, Hin.
  - specialize (Hr f Hin). unfold is_required, has_key in Hr.
    rewrite Hreq, Hnone in Hr. discriminate.
Qed.

Lemma generic_from_dict_not_ok (cls : class_name) (data : value) :
  (forall o, BaseModel_from_dict cls data <> Ok o) ->
  BaseModel_from_dict cls data = Raise TypeError.
Proof.
  intros H. destruct (BaseModel_from_dict cls data) as [o|e] eqn:E.
  - now destruct (H o).
  - now rewrite (generic_from_dict_error _ _ _ E).
Qed.

Lemma mapM_from_dict_not_ok (cls : class_name) (raws : list value) (raw : value) :
  In raw raws ->
  (forall o, BaseModel_from_dict cls raw <> Ok o) ->
  mapM (BaseModel_from_dict cls) raws = Raise TypeError.
Proof.
  intros Hin Hraw.
  destruct (mapM (BaseModel_from_dict cls) raws) as [l|e] eqn:E.
  - now destruct (mapM_fails _ _ _ Hin Hraw l).
  - apply mapM_raise in E. destruct E as [x [_ Hx]].
    now rewrite (generic_from_dict_error _ _ _ Hx).
Qed.

(** C5, as the code has it.  For a class that uses the generic
    [from_dict], a mapping with an unexpected key or without a required
    field is refused with a [TypeError], and no record is returned.  The
    two envelopes read the keys they know: without the key [secrets]
    (respectively [secret]) the call fails with a [KeyError]; the other
    keys of the mapping are never looked at, so that two mappings that
    agree on [secrets] and [imports] (respectively [secret]) give the same
    result; and a nested secret or import that the generic [from_dict]
    refuses makes the call fail, no record being returned. *)
Theorem from_dict_shape_errors :
  (forall cls kwargs,
     overrides_from_dict cls = false ->
     unexpected_key cls kwargs \/ missing_required cls kwargs ->
     from_dict cls (VDict kwargs) = Raise TypeError) /\
  (forall kvs,
     lookup "secrets" kvs = None ->
     from_dict ListSecretsResponse (VDict kvs) = Raise KeyError) /\
  (forall kvs,
     lookup "secret" kvs = None ->
     from_dict SingleSecretResponse (VDict kvs) = Raise KeyError) /\
  (forall kvs kvs',
     lookup "secrets" kvs' = lookup "secrets" kvs ->
     lookup "imports" kvs' = lookup "imports" kvs ->
     from_dict ListSecretsResponse (VDict kvs') =
     from_dict ListSecretsResponse (VDict kvs)) /\
  (forall kvs kvs',
     lookup "secret" kvs' = lookup "secret" kvs ->
     from_dict SingleSecretResponse (VDict kvs') =
     from_dict SingleSecretResponse (VDict kvs)) /\
  (forall kvs raws raw,
     lookup "secrets" kvs = Some (VList raws) ->
     In (VDict raw) raws ->
     unexpected_key BaseSecret raw \/ missing_required BaseSecret raw ->
     from_dict ListSecretsResponse (VDict kvs) = Raise TypeError) /\
  (forall kvs raws raw,
     lookup "imports" kvs = Some (VList raws) ->
     In (VDict raw) raws ->
     unexpected_key Import raw \/ missing_required Import raw ->
     forall x, from_dict ListSecretsResponse (VDict kvs) <> Ok x) /\
  (forall kvs raw,
     lookup "secret" kvs = Some (VDict raw) ->
     unexpected_key BaseSecret raw \/ missing_required BaseSecret raw ->
     from_dict SingleSecretResponse (VDict kvs) = Raise TypeError).
Proof.
  assert (Hrefused : forall cls raw,
             unexpected_key cls raw \/ missing_required cls raw ->
             forall o, BaseModel_from_dict cls (VDict raw) <> Ok o).
  { intros cls raw Hbad o. simpl.
    rewrite (construct_error _ _ (wrong_shape _ _ Hbad)). discriminate. }
  repeat split.
  - intros cls kwargs Hgen Hbad. rewrite (from_dict_generic _ _ Hgen).
    simpl. apply construct_error, wrong_shape, Hbad.
  - intros kvs H. simpl. unfold ListSecretsResponse_from_dict. simpl getitem.
    now rewrite H.
  - intros kvs H. simpl. unfold SingleSecretResponse_from_dict. simpl getitem.
    now rewrite H.
  - intros kvs kvs' Hs Hi. simpl. unfold ListSecretsResponse_from_dict.
    simpl getitem. simpl dict_get. now rewrite Hs, Hi.
  - intros kvs kvs' Hs. simpl. unfold SingleSecretResponse_from_dict.
    simpl getitem. now rewrite Hs.
  - intros kvs raws raw Hs Hin Hbad. simpl.
    unfold ListSecretsResponse_from_dict. simpl getitem. rewrite Hs.
    cbn [bind py_iter].
    now rewrite (mapM_from_dict_not_ok _ _ _ Hin (Hrefused _ _ Hbad)).
  - intros kvs raws raw Hi Hin Hbad x Hok. simpl in Hok.
    apply list_secrets_from_dict_inv in Hok.
    destruct Hok as (kvs0 & sv & rs & secrets & iv & imps & imports &
                     Heq & _ & _ & _ & -> & Hit & Hm & _).
    injection Heq as <-. rewrite Hi in Hit. simpl in Hit. injection Hit as <-.
    exact (mapM_fails _ _ _ Hin (Hrefused _ _ Hbad) imports Hm).
  - intros kvs raw Hs Hbad. simpl. unfold SingleSecretResponse_from_dict.
    simpl getitem. rewrite Hs. cbn [bind].
    now rewrite (generic_from_dict_not_ok _ _ (Hrefused _ _ Hbad)).
Qed.

Lemma from_dict_shape_errors_witness :
  from_dict SecretTag
    (VDict [("id", VStr "1"); ("slug", VStr "s"); ("name", VStr "n");
            ("extra", VInt 1)]) = Raise TypeError /\
  from_dict SecretTag (VDict [("id", VStr "1"); ("slug", VStr "s")]) =
    Raise TypeError /\
  from_dict ListSecretsResponse (VDict [("imports", VList [])]) = Raise KeyError /\
  from_dict ListSecretsResponse
    (VDict [("secrets", VList [VDict [("id", VStr "1")]])]) = Raise TypeError.
Proof.
  destruct from_dict_shape_errors as (Hgen & Hkey & _ & _ & _ & Hnested & _).
  split; [|split; [|split]].
  - apply Hgen; [reflexivity|]. left. exists "extra". split.
    + simpl. tauto.
    + simpl. intuition discriminate.
  - apply Hgen; [reflexivity|]. right.
    exists (mkField "name" TStr Required). simpl. tauto.
  - apply Hkey. reflexivity.
  - apply (Hnested _ [VDict [("id", VStr "1")]] [("id", VStr "1")]).
    + reflexivity.
    + now left.
    + right. exists (mkField "_id" TStr Required). simpl. tauto.
Defined.

(** C5 fails as stated for the envelopes: their [from_dict] accepts a
    mapping with an unexpected extra key and returns a record; and when
    the required key is missing the failure is the [KeyError] of the
    subscription, not the [TypeError] of a construction. *)
Lemma envelope_from_dict_accepts_extra_key :
  unexpected_key ListSecretsResponse [("secrets", VList []); ("extra", VInt 1)] /\
  from_dict ListSecretsResponse (VDict [("secrets", VList []); ("extra", VInt 1)]) =
    Ok (list_secrets_response [] []) /\
  unexpected_key SingleSecretResponse
    [("secret", VDict required_only); ("extra", VInt 1)] /\
  from_dict SingleSecretResponse
    (VDict [("secret", VDict required_only); ("extra", VInt 1)]) =
    Ok (single_secret_response minimal_secret) /\
  missing_required ListSecretsResponse [] /\
  from_dict ListSecretsResponse (VDict []) = Raise KeyError.
Proof.
  repeat split; try reflexivity.
  - exists "extra". simpl. intuition discriminate.
  - exists "extra". simpl. intuition discriminate.
  - exists (mkField "secrets" (TList (TModel BaseSecret)) Required).
    simpl. tauto.
Qed.

(** ** C6: the [imports] of a list response *)

Lemma mapM_all_ok {A B : Type} (f : A -> result B) (l : list A) :
  (forall x, In x l -> exists y, f x = Ok y) -> exists r, mapM f l = Ok r.
Proof.
  induction l as [|x l IH]; intros H.
  - exists []. reflexivity.
  - destruct (H x) as [y Hy]; [now left|].
    destruct IH as [r Hr]; [intros; apply H; now right|].
    exists (y :: r). simpl. now rewrite Hy, Hr.
Qed.

(** C6, as the code has it: when a mapping has no key [imports] and its
    [secrets] are accepted one by one by [BaseSecret.from_dict], then
    [ListSecretsResponse.from_dict] succeeds and the [imports] of the
    record is the empty list; whenever [ListSecretsResponse.from_dict]
    returns a record, its [imports] is a list; and after a call of the
    constructor the [imports] is the empty list when the argument was not
    passed, which a call with [secrets] alone shows, and is what was
    passed otherwise. *)
Theorem list_secrets_imports_default
  (kvs : pydict) (secrets : value) (raws : list value) :
  lookup "secrets" kvs = Some secrets ->
  py_iter secrets = Ok raws ->
  (forall raw, In raw raws -> exists o, from_dict BaseSecret raw = Ok o) ->
  lookup "imports" kvs = None ->
  (exists x,
     from_dict ListSecretsResponse (VDict kvs) = Ok x /\
     getattr x "imports" = Some (VList [])) /\
  (forall data y,
     from_dict ListSecretsResponse data = Ok y ->
     exists l, getattr y "imports" = Some (VList l)) /\
  (forall kwargs y,
     construct ListSecretsResponse kwargs = Ok y ->
     (lookup "imports" kwargs = None -> getattr y "imports" = Some (VList [])) /\
     (forall v, lookup "imports" kwargs = Some v ->
                getattr y "imports" = Some v)) /\
  (forall s,
     construct ListSecretsResponse [("secrets", s)] =
     Ok (Instance ListSecretsResponse [("secrets", s); ("imports", VList [])])).
Proof.
  intros Hs Hr Hall Hi. split; [|split; [|split]].
  - destruct (mapM_all_ok (BaseModel_from_dict BaseSecret) raws Hall) as [l Hl].
    exists (list_secrets_response l []). split; [|reflexivity].
    simpl from_dict.
    apply (list_secrets_from_dict_ok kvs secrets raws l [] []);
      try assumption; [now rewrite Hi | reflexivity].
  - intros data y Hok. simpl in Hok. apply list_secrets_from_dict_inv in Hok.
    destruct Hok as (? & ? & ? & ? & ? & ? & imports & _ & _ & _ & _ & _ & _ & _ & ->).
    exists (map VObj imports). reflexivity.
  - intros kwargs y Hok. apply construct_inv in Hok. destruct Hok as [_ ->].
    unfold getattr. simpl dict_of.
    pose proof (lookup_bound ListSecretsResponse kwargs
                  (mkField "imports" (TList (TModel Import)) DefaultFactoryList))
      as Hb.
    cbn [fname] in Hb. rewrite Hb by (simpl; tauto).
    unfold bound_value. cbn [fname fdefault]. split.
    + intros Hnone. now rewrite Hnone.
    + intros v Hv. now rewrite Hv.
  - intros s. reflexivity.
Qed.

Lemma list_secrets_imports_default_witness :
  (exists x,
     from_dict ListSecretsResponse (VDict [("secrets", VList [VDict required_only])]) =
       Ok x /\
     getattr x "imports" = Some (VList [])) /\
  construct ListSecretsResponse [("secrets", VList [VObj minimal_secret])] =
    Ok (list_secrets_response [minimal_secret] []).
Proof.
  destruct (list_secrets_imports_default
              [("secrets", VList [VDict required_only])]
              (VList [VDict required_only]) [VDict required_only])
    as (Hfrom & _ & _ & Hctor).
  - reflexivity.
  - reflexivity.
  - intros raw [<- | []]. exists minimal_secret. reflexivity.
  - reflexivity.
  - split; [exact Hfrom|]. exact (Hctor (VList [VObj minimal_secret])).
Defined.

(** C6 fails as stated: a mapping with the key [secrets] and without the
    key [imports] is refused when one of its secrets is; and a
    construction that passes [imports=None] leaves [None], not a list, in
    the attribute. *)
Lemma list_secrets_from_dict_may_fail :
  lookup "secrets" [("secrets", VList [VDict []])] = Some (VList [VDict []]) /\
  lookup "imports" [("secrets", VList [VDict []])] = None /\
  from_dict ListSecretsResponse (VDict [("secrets", VList [VDict []])]) =
    Raise TypeError /\
  construct ListSecretsResponse [("secrets", VList []); ("imports", VNone)] =
    Ok (Instance ListSecretsResponse [("secrets", VList []); ("imports", VNone)]).
Proof. repeat split; reflexivity. Qed.

(** ** C8: equality and immutability of [SecretTag] *)

Lemma secret_tag_constructed (id slug name : string) (color : option string) :
  construct SecretTag
    [ ("id", VStr id); ("slug", VStr slug); ("name", VStr name);
      ("color", match color with Some c => VStr c | None => VNone end) ] =
  Ok (secret_tag id slug name color).
Proof. reflexivity. Qed.

(** A tag that holds what its annotations announce is of this form. *)
Lemma typed_tag_shape (t : instance) :
  class_of t = SecretTag -> well_formed t -> well_typed t = true ->
  exists id slug name color, t = secret_tag id slug name color.
Proof.
  destruct t as [c d]. unfold well_formed, well_typed. simpl class_of.
  simpl dict_of. intros -> Hk Ht.
  destruct d as [|[k1 v1] [|[k2 v2] [|[k3 v3] [|[k4 v4] [|? ?]]]]];
    try discriminate Hk.
  injection Hk as -> -> -> ->.
  unfold getattr in Ht. simpl in Ht.
  destruct v1; try discriminate Ht. destruct v2; try discriminate Ht.
  destruct v3; try discriminate Ht.
  destruct v4; try discriminate Ht.
  - now exists s, s0, s1, None.
  - now exists s, s0, s1, (Some s2).
Qed.

Lemma secret_tag_eq (a b c a' b' c' : string) (col col' : option string) :
  py_eq (VObj (secret_tag a b c col)) (VObj (secret_tag a' b' c' col')) = true <->
  a = a' /\ b = b' /\ c = c' /\ col = col'.
Proof.
  change (py_eq (VObj (secret_tag a b c col)) (VObj (secret_tag a' b' c' col')))
    with (String.eqb a a' &&
          (String.eqb b b' &&
           (String.eqb c c' &&
            (py_eq (match col with Some x => VStr x | None => VNone end)
                   (match col' with Some x => VStr x | None => VNone end) &&
             true)))).
  rewrite !andb_true_iff, !String.eqb_eq.
  assert (Hcol : py_eq (match col with Some x => VStr x | None => VNone end)
                       (match col' with Some x => VStr x | None => VNone end) = true
                 <-> col = col').
  { destruct col, col'; simpl; split; try congruence.
    - intros H. apply String.eqb_eq in H. now subst.
    - intros H. injection H as ->. apply String.eqb_refl. }
  rewrite Hcol. tauto.
Qed.

(** A record with exactly its declared attributes and plain data is equal
    to itself. *)
Lemma plain_instance_eq_refl (o : instance) :
  well_formed o -> plain_dict (dict_of o) = true ->
  py_eq (VObj o) (VObj o) = true.
Proof.
  destruct o as [c d]. unfold well_formed. simpl class_of. simpl dict_of.
  intros Hwf Hp.
  change (dataclass_eq (Instance c d) (Instance c d) = true).
  rewrite dataclass_eq_unfold, class_eqb_refl. simpl.
  apply forallb_forall. intros name Hname. rewrite <- Hwf in Hname.
  destruct (lookup_Some_key _ _ Hname) as [v Hv].
  unfold attr_eq. rewrite Hv. apply plain_eq_refl.
  unfold plain_dict in Hp. rewrite forallb_forall in Hp.
  exact (Hp _ (lookup_In _ _ _ Hv)).
Qed.

(** A tag with exactly its declared attributes is determined by them. *)
Lemma tag_extensionality (t t' : instance) :
  class_of t = SecretTag -> well_formed t ->
  class_of t' = SecretTag -> well_formed t' ->
  getattr t "id" = getattr t' "id" ->
  getattr t "slug" = getattr t' "slug" ->
  getattr t "name" = getattr t' "name" ->
  getattr t "color" = getattr t' "color" ->
  t = t'.
Proof.
  destruct t as [c d], t' as [c' d']. unfold well_formed, getattr.
  simpl class_of. simpl dict_of. intros -> Hk -> Hk'.
  destruct d as [|[k1 v1] [|[k2 v2] [|[k3 v3] [|[k4 v4] [|? ?]]]]];
    try discriminate Hk.
  destruct d' as [|[k1' v1'] [|[k2' v2'] [|[k3' v3'] [|[k4' v4'] [|? ?]]]]];
    try discriminate Hk'.
  injection Hk as -> -> -> ->. injection Hk' as -> -> -> ->.
  simpl. intros H1 H2 H3 H4. congruence.
Qed.




(** ** C10: an explicit [null] for a field that has a default *)

Lemma not_required_cases (f : field) :
  is_required f = false ->
  (exists v, fdefault f = Default v) \/ fdefault f = DefaultFactoryList.
Proof.
  unfold is_required. destruct (fdefault f); [discriminate | eauto | eauto].
Qed.

Section ExplicitNull.

Variable cls : class_name.
Variable f : field.
Variable kwargs : pydict.
Hypothesis Hf : In f (fields cls).
Hypothesis Hopt : is_required f = false.
Hypothesis Hnull : lookup (fname f) kwargs = Some VNone.

Lemma explicit_null_other (g : field) :
  In g (fields cls) -> g <> f -> lookup (fname g) (dict_del (fname f) kwargs) = lookup (fname g) kwargs.
Proof.
  intros Hg Hneq. apply lookup_dict_del_other. intros Heq.
  apply Hneq. symmetry. exact (field_by_name cls f g Hf Hg Heq).
Qed.

Lemma explicit_null_shape : shape_ok cls (dict_del (fname f) kwargs) = true -> shape_ok cls kwargs = true.
Proof.
  unfold shape_ok. rewrite !andb_true_iff, !forallb_forall.
  intros [Hk Hr]. split.
  - intros k Hin. destruct (String.eqb k (fname f)) eqn:E.
    + apply String.eqb_eq in E. subst k. apply is_field_In.
      unfold field_names. now apply in_map.
    + apply Hk. unfold keys in *. apply in_map_iff in Hin.
      destruct Hin as [kv [Hkv Hin]]. apply in_map_iff. exists kv.
      split; [assumption|]. unfold dict_del. apply filter_In.
      split; [assumption|]. rewrite Hkv. now rewrite E.
  - intros g Hg. specialize (Hr g Hg).
    destruct (is_required g) eqn:Eg; [|reflexivity]. simpl in *.
    unfold has_key in *. rewrite explicit_null_other in Hr; [assumption.. |].
    intros ->. congruence.
Qed.

Lemma explicit_null_same_record :
  fdefault f = Default VNone -> bound cls kwargs = bound cls (dict_del (fname f) kwargs).
Proof.
  intros Hd. unfold bound. apply map_ext_in. intros g Hg. f_equal.
  unfold bound_value.
  destruct (String.eqb (fname f) (fname g)) eqn:E.
  - apply String.eqb_eq in E.
    rewrite <- (field_by_name cls f g Hf Hg E).
    now rewrite Hnull, lookup_dict_del_same, Hd.
  - apply String.eqb_neq in E.
    now rewrite lookup_dict_del_other.
Qed.

End ExplicitNull.

(** C10, as the code has it: let f be a field with a default, and let a
    mapping carry an explicit [None] for f.  If the generic [from_dict]
    accepts the mapping without that entry, it accepts the mapping with
    it; the attribute of the record is then [None] and [to_dict] has no
    key for it.  When the default of f is [None] the record is the one
    built from the mapping without the entry; when the default is
    something else ([False], an empty list), the record built without the
    entry holds the default and its [to_dict] has the key. *)
Theorem explicit_null_round_trip
  (cls : class_name) (f : field) (kwargs : pydict) (o0 : instance) :
  overrides_from_dict cls = false ->
  In f (fields cls) ->
  is_required f = false ->
  lookup (fname f) kwargs = Some VNone ->
  from_dict cls (VDict (dict_del (fname f) kwargs)) = Ok o0 ->
  exists o,
    from_dict cls (VDict kwargs) = Ok o /\
    getattr o (fname f) = Some VNone /\
    lookup (fname f) (to_dict o) = None /\
    (fdefault f = Default VNone -> o = o0) /\
    (fdefault f <> Default VNone -> lookup (fname f) (to_dict o0) <> None).
Proof.
  intros Hgen Hf Hopt Hnull Hok0.
  rewrite (from_dict_generic cls _ Hgen) in Hok0.
  apply generic_from_dict_inv in Hok0.
  destruct Hok0 as [kw [Heq [Hshape ->]]]. injection Heq as <-.
  exists (Instance cls (bound cls kwargs)).
  assert (Hattr : lookup (fname f) (bound cls kwargs) = Some VNone).
  { rewrite (lookup_bound cls kwargs f Hf). unfold bound_value. now rewrite Hnull. }
  split; [|split; [|split; [|split]]].
  - rewrite (from_dict_generic cls _ Hgen). simpl. apply construct_ok.
    exact (explicit_null_shape cls f kwargs Hf Hopt Hshape).
  - exact Hattr.
  - rewrite to_dict_unfold. apply lookup_to_dict_none; [|exact Hattr].
    unfold bound. rewrite keys_map_fields. apply field_names_unique.
  - intros Hd. f_equal.
    exact (explicit_null_same_record cls f kwargs Hf Hnull Hd).
  - intros Hd. rewrite to_dict_unfold.
    assert (Hv : exists v, lookup (fname f) (bound cls (dict_del (fname f) kwargs))
                           = Some v /\ is_none v = false).
    { rewrite (lookup_bound cls _ f Hf). unfold bound_value.
      rewrite lookup_dict_del_same.
      destruct (not_required_cases f Hopt) as [[v Hv] | Hv]; rewrite Hv.
      - exists v. split; [reflexivity|]. destruct v; try reflexivity.
        now rewrite Hv in Hd.
      - exists (VList []). split; reflexivity. }
    destruct Hv as [v [Hv Hnn]].
    rewrite (lookup_to_dict_some _ _ _ Hv Hnn). discriminate.
Qed.

Lemma explicit_null_round_trip_witness :
  exists o,
    from_dict BaseSecret (VDict (required_only ++ [("secretPath", VNone)])) = Ok o /\
    getattr o "secretPath" = Some VNone /\
    lookup "secretPath" (to_dict o) = None /\
    o = minimal_secret.
Proof.
  destruct (explicit_null_round_trip BaseSecret
              (mkField "secretPath" (TOptional TStr) (Default VNone))
              (required_only ++ [("secretPath", VNone)]) minimal_secret)
    as (o & Hok & Hattr & Hkey & Hsame & _).
  - reflexivity.
  - simpl. tauto.
  - reflexivity.
  - reflexivity.
  - reflexivity.
  - exists o. repeat split; try assumption. now apply Hsame.
Defined.

(** C10 fails as stated for [skipMultilineEncoding], whose default is
    [False]: with an explicit [null] the record holds [None] and
    [to_dict] omits the key, without the key the record holds [False] and
    [to_dict] emits it; the two records are not equal and the two
    mappings differ. *)
Lemma explicit_null_differs_from_absent :
  from_dict BaseSecret null_flag_raw = Ok null_flag_secret /\
  from_dict BaseSecret (VDict required_only) = Ok minimal_secret /\
  lookup "skipMultilineEncoding" (to_dict null_flag_secret) = None /\
  lookup "skipMultilineEncoding" (to_dict minimal_secret) = Some (VBool false) /\
  py_eq (VObj null_flag_secret) (VObj minimal_secret) = false /\
  py_eq (VDict (to_dict null_flag_secret)) (VDict (to_dict minimal_secret)) = false.
Proof. repeat split; reflexivity. Qed.

(** ** C7: [from_json] *)




(** * Further properties of the model layer *)

(** ** What [from_dict] returns and how it fails *)

Lemma py_iter_error (v : value) (e : exn) : py_iter v = Raise e -> e = TypeError.
Proof. destruct v; simpl; congruence. Qed.

Lemma mapM_from_dict_error (cls : class_name) (raws : list value) (e : exn) :
  mapM (BaseModel_from_dict cls) raws = Raise e -> e = TypeError.
Proof.
  intros H. apply mapM_raise in H. destruct H as [x [_ Hx]].
  exact (generic_from_dict_error _ _ _ Hx).
Qed.

Lemma mapM_from_dict_well_formed
  (cls : class_name) (raws : list value) (l : list instance) :
  mapM (BaseModel_from_dict cls) raws = Ok l ->
  Forall (fun o => class_of o = cls /\ well_formed o) l.
Proof.
  intros H. apply mapM_inv in H.
  induction H as [|x o raws' l' Hx _ IH]; constructor; [|exact IH].
  apply generic_from_dict_inv in Hx. destruct Hx as [kw [_ [_ ->]]].
  split; [reflexivity | apply bound_well_formed].
Qed.

(** X1: a record returned by [from_dict] is an instance of the class the
    method was called on and has exactly the declared attributes, in the
    order of declaration; and the records an envelope holds are
    [BaseSecret] or [Import] instances with exactly their declared
    attributes. *)
Theorem from_dict_well_formed (cls : class_name) (data : value) (o : instance) :
  from_dict cls data = Ok o ->
  class_of o = cls /\ well_formed o /\
  (overrides_from_dict cls = true ->
   forall i, In i (held_instances o) ->
             well_formed i /\ (class_of i = BaseSecret \/ class_of i = Import)).
Proof.
  intros Hok.
  assert (Hgen : overrides_from_dict cls = false ->
                 class_of o = cls /\ well_formed o).
  { intros Hgen. rewrite (from_dict_generic _ _ Hgen) in Hok.
    apply generic_from_dict_inv in Hok. destruct Hok as [kw [_ [_ ->]]].
    split; [reflexivity | apply bound_well_formed]. }
  destruct cls;
    try (destruct (Hgen eq_refl) as [Hc Hwf];
         split; [exact Hc | split; [exact Hwf | discriminate]]).
  - simpl in Hok. apply list_secrets_from_dict_inv in Hok.
    destruct Hok as (kvs & sv & raws & secrets & iv & imps & imports &
                     _ & _ & _ & Hm & _ & _ & Hmi & ->).
    split; [reflexivity|]. split; [reflexivity|]. intros _ i Hin.
    rewrite held_list_secrets in Hin. apply in_app_or in Hin.
    apply mapM_from_dict_well_formed in Hm, Hmi.
    rewrite Forall_forall in Hm, Hmi.
    destruct Hin as [Hin | Hin]; [destruct (Hm i Hin) | destruct (Hmi i Hin)];
      tauto.
  - simpl in Hok. apply single_secret_from_dict_inv in Hok.
    destruct Hok as (kvs & raw & secret & _ & _ & Hb & ->).
    split; [reflexivity|]. split; [reflexivity|]. intros _ i Hin.
    simpl in Hin. destruct Hin as [<- | []].
    apply generic_from_dict_inv in Hb. destruct Hb as [kw [_ [_ ->]]].
    split; [apply bound_well_formed | now left].
Qed.

Lemma from_dict_well_formed_witness :
  class_of (list_secrets_response [minimal_secret] [raw_import]) =
    ListSecretsResponse /\
  well_formed (list_secrets_response [minimal_secret] [raw_import]) /\
  well_formed raw_import.
Proof.
  destruct (from_dict_well_formed ListSecretsResponse list_response_raw
              (list_secrets_response [minimal_secret] [raw_import]) eq_refl)
    as (Hc & Hwf & Hheld).
  split; [exact Hc|]. split; [exact Hwf|].
  apply (Hheld eq_refl raw_import). simpl. tauto.
Defined.

(** X2: the generic [from_dict] accepts a mapping exactly when every key of
    the mapping names a declared field and every field without default has
    a key; the values play no part, no annotation is checked. *)
Theorem generic_from_dict_accepts_iff (cls : class_name) (kwargs : pydict) :
  overrides_from_dict cls = false ->
  ((exists o, from_dict cls (VDict kwargs) = Ok o) <->
   (forall k, In k (keys kwargs) -> In k (field_names cls)) /\
   (forall f, In f (fields cls) -> fdefault f = Required ->
              In (fname f) (keys kwargs))).
Proof.
  intros Hgen. rewrite (from_dict_generic _ _ Hgen). simpl. split.
  - intros [o Hok]. apply construct_inv in Hok. destruct Hok as [Hshape _].
    unfold shape_ok in Hshape. apply andb_true_iff in Hshape.
    destruct Hshape as [Hk Hr]. rewrite forallb_forall in Hk, Hr. split.
    + intros k Hin. apply is_field_In, Hk, Hin.
    + intros f Hf Hreq. specialize (Hr f Hf).
      unfold is_required, has_key in Hr. rewrite Hreq in Hr. simpl in Hr.
      destruct (lookup (fname f) kwargs) as [v|] eqn:E; [|discriminate].
      apply lookup_In in E. unfold keys. change (fname f) with (fst (fname f, v)).
      now apply in_map.
  - intros [Hk Hr]. exists (Instance cls (bound cls kwargs)).
    apply construct_ok. unfold shape_ok. apply andb_true_iff. split.
    + apply forallb_forall. intros k Hin. apply is_field_In, Hk, Hin.
    + apply forallb_forall. intros f Hf. unfold is_required, has_key.
      destruct (fdefault f) eqn:Ed; try reflexivity. simpl.
      destruct (lookup_Some_key _ _ (Hr f Hf Ed)) as [v ->]. reflexivity.
Qed.

Lemma generic_from_dict_accepts_iff_witness :
  exists o, from_dict SecretMetadata (VDict untyped_metadata_raw) = Ok o.
Proof.
  apply (generic_from_dict_accepts_iff SecretMetadata untyped_metadata_raw).
  - reflexivity.
  - split.
    + simpl. tauto.
    + simpl. intros f [<- | [<- | []]] _; simpl; tauto.
Defined.

(** X3: in a record built by the generic [from_dict], a field that has no
    key in the mapping holds its declared default ([False] for
    [skipMultilineEncoding], a new empty list for the list fields, [None]
    for the others), and such a field is never a required one. *)
Theorem absent_field_takes_default
  (cls : class_name) (kwargs : pydict) (o : instance) (f : field) :
  overrides_from_dict cls = false ->
  from_dict cls (VDict kwargs) = Ok o ->
  In f (fields cls) ->
  lookup (fname f) kwargs = None ->
  fdefault f <> Required /\ getattr o (fname f) = default_value f.
Proof.
  intros Hgen Hok Hf Hnone. rewrite (from_dict_generic _ _ Hgen) in Hok.
  apply generic_from_dict_inv in Hok.
  destruct Hok as [kw [Heq [Hshape ->]]]. injection Heq as <-.
  unfold shape_ok in Hshape. apply andb_true_iff in Hshape.
  destruct Hshape as [_ Hr]. rewrite forallb_forall in Hr.
  specialize (Hr f Hf). unfold is_required, has_key in Hr. rewrite Hnone in Hr.
  unfold getattr. simpl dict_of. rewrite (lookup_bound cls kwargs f Hf).
  unfold bound_value, default_value. rewrite Hnone.
  destruct (fdefault f); [discriminate | |]; split; congruence.
Qed.

Lemma absent_field_takes_default_witness :
  getattr minimal_secret "skipMultilineEncoding" = Some (VBool false) /\
  getattr minimal_secret "tags" = Some (VList []).
Proof.
  split.
  - apply (absent_field_takes_default BaseSecret required_only minimal_secret
             (mkField "skipMultilineEncoding" (TOptional TBool)
                (Default (VBool false))));
      try reflexivity. simpl. repeat (first [now left | right]).
  - apply (absent_field_takes_default BaseSecret required_only minimal_secret
             (mkField "tags" (TList (TModel SecretTag)) DefaultFactoryList));
      try reflexivity. simpl. repeat (first [now left | right]).
Defined.

Lemma forallb_same_elements {A : Type} (p : A -> bool) (l l' : list A) :
  (forall x, In x l <-> In x l') -> forallb p l = forallb p l'.
Proof.
  intros H. destruct (forallb p l) eqn:E, (forallb p l') eqn:E'; try reflexivity.
  - rewrite forallb_forall in E. exfalso.
    assert (Hall : forallb p l' = true)
      by (apply forallb_forall; intros x Hx; apply E, H, Hx).
    congruence.
  - rewrite forallb_forall in E'. exfalso.
    assert (Hall : forallb p l = true)
      by (apply forallb_forall; intros x Hx; apply E', H, Hx).
    congruence.
Qed.

Lemma keys_same_lookup (d d' : pydict) :
  (forall k, lookup k d = lookup k d') ->
  forall k, In k (keys d) <-> In k (keys d').
Proof.
  intros H k. split; intros Hin.
  - destruct (lookup_Some_key _ _ Hin) as [v Hv]. rewrite H in Hv.
    apply lookup_In in Hv. unfold keys. change k with (fst (k, v)).
    now apply in_map.
  - destruct (lookup_Some_key _ _ Hin) as [v Hv]. rewrite <- H in Hv.
    apply lookup_In in Hv. unfold keys. change k with (fst (k, v)).
    now apply in_map.
Qed.

Lemma mapM_pointwise {A B : Type} (f g : A -> result B) (l : list A) :
  (forall x, f x = g x) -> mapM f l = mapM g l.
Proof.
  intros H. induction l as [|x r IH]; simpl; [reflexivity|].
  now rewrite H, IH.
Qed.

(** X4: the result of [from_dict], a record or an exception, depends on the
    mapping only through the value it has under each key: the order of the
    keys is irrelevant, for the generic method and for the two
    overrides. *)
Theorem from_dict_order_irrelevant (cls : class_name) (kwargs kwargs' : pydict) :
  (forall k, lookup k kwargs = lookup k kwargs') ->
  from_dict cls (VDict kwargs) = from_dict cls (VDict kwargs').
Proof.
  intros H.
  assert (Hgen : forall c, construct c kwargs = construct c kwargs').
  { intros c. unfold construct.
    rewrite (forallb_same_elements (is_field c) _ _ (keys_same_lookup _ _ H)).
    rewrite (mapM_pointwise (init_field kwargs) (init_field kwargs')).
    - reflexivity.
    - intros f. unfold init_field. now rewrite H. }
  destruct cls; simpl; try apply Hgen.
  - unfold ListSecretsResponse_from_dict. simpl getitem. simpl dict_get.
    now rewrite !H.
  - unfold SingleSecretResponse_from_dict. simpl getitem. now rewrite H.
Qed.

Lemma lookup_reordered (k : string) :
  lookup k required_only = lookup k required_reordered.
Proof.
  unfold required_only, required_reordered. cbn [lookup].
  repeat match goal with
         | |- context [String.eqb ?a k] =>
             destruct (String.eqb a k) eqn:?;
             [match goal with
              | E : String.eqb _ k = true |- _ =>
                  apply String.eqb_eq in E; subst k; reflexivity
              end|]
         end.
  reflexivity.
Qed.

Lemma from_dict_order_irrelevant_witness :
  from_dict BaseSecret (VDict required_reordered) = Ok minimal_secret.
Proof.
  rewrite <- (from_dict_order_irrelevant BaseSecret required_only
                required_reordered lookup_reordered).
  reflexivity.
Defined.

(** X5: [from_dict] returns a record only for a mapping, and the only
    exceptions it raises are [TypeError] and, for the two envelopes when
    their key [secrets] (respectively [secret]) is missing from the
    mapping, [KeyError]. *)
Theorem from_dict_error_kinds (cls : class_name) (data : value) :
  (forall o, from_dict cls data = Ok o -> is_mapping data = true) /\
  (forall e, from_dict cls data = Raise e ->
     e = TypeError \/
     (e = KeyError /\
      exists kvs,
        data = VDict kvs /\
        ((cls = ListSecretsResponse /\ lookup "secrets" kvs = None) \/
         (cls = SingleSecretResponse /\ lookup "secret" kvs = None)))).
Proof.
  split.
  - intros o Hok. destruct data; try reflexivity;
      destruct cls; simpl in Hok; discriminate.
  - intros e Hraise.
    assert (Hgen : overrides_from_dict cls = false -> e = TypeError).
    { intros Hgen. rewrite (from_dict_generic _ _ Hgen) in Hraise.
      exact (generic_from_dict_error _ _ _ Hraise). }
    destruct cls; try (left; exact (Hgen eq_refl)); clear Hgen;
      simpl in Hraise.
    + unfold ListSecretsResponse_from_dict in Hraise.
      destruct data as [| | | | | | kvs | |];
        try (left; simpl in Hraise; congruence).
      simpl getitem in Hraise. simpl dict_get in Hraise.
      destruct (lookup "secrets" kvs) as [sv|] eqn:Es.
      * left. cbn [bind] in Hraise.
        destruct (py_iter sv) as [raws|e1] eqn:Er; cbn [bind] in Hraise;
          [|injection Hraise as <-; exact (py_iter_error _ _ Er)].
        destruct (mapM (BaseModel_from_dict BaseSecret) raws) as [secs|e2] eqn:Em;
          cbn [bind] in Hraise;
          [|injection Hraise as <-; exact (mapM_from_dict_error _ _ _ Em)].
        assert (Hiv : exists iv,
                   match lookup "imports" kvs with
                   | Some v => Ok v
                   | None => Ok (VList [])
                   end = Ok iv)
          by (destruct (lookup "imports" kvs); eauto).
        destruct Hiv as [iv Hiv]. rewrite Hiv in Hraise. cbn [bind] in Hraise.
        destruct (py_iter iv) as [imps|e3] eqn:Ei; cbn [bind] in Hraise;
          [|injection Hraise as <-; exact (py_iter_error _ _ Ei)].
        destruct (mapM (BaseModel_from_dict Import) imps) as [imports|e4] eqn:Emi;
          cbn [bind] in Hraise;
          [|injection Hraise as <-; exact (mapM_from_dict_error _ _ _ Emi)].
        discriminate Hraise.
      * right. cbn [bind] in Hraise. injection Hraise as <-.
        split; [reflexivity|]. exists kvs. tauto.
    + unfold SingleSecretResponse_from_dict in Hraise.
      destruct data as [| | | | | | kvs | |];
        try (left; simpl in Hraise; congruence).
      simpl getitem in Hraise.
      destruct (lookup "secret" kvs) as [raw|] eqn:Es.
      * left. cbn [bind] in Hraise.
        destruct (BaseModel_from_dict BaseSecret raw) as [s|e1] eqn:Eb;
          cbn [bind] in Hraise;
          [discriminate Hraise
          |injection Hraise as <-; exact (generic_from_dict_error _ _ _ Eb)].
      * right. cbn [bind] in Hraise. injection Hraise as <-.
        split; [reflexivity|]. exists kvs. tauto.
Qed.

Lemma from_dict_error_kinds_witness :
  is_mapping list_response_raw = true /\
  (TypeError = TypeError \/
   (TypeError = KeyError /\
    exists kvs,
      VList [] = VDict kvs /\
      ((ListSecretsResponse = ListSecretsResponse /\ lookup "secrets" kvs = None) \/
       (ListSecretsResponse = SingleSecretResponse /\ lookup "secret" kvs = None)))).
Proof.
  split.
  - apply (proj1 (from_dict_error_kinds ListSecretsResponse list_response_raw)
             (list_secrets_response [minimal_secret] [raw_import])).
    reflexivity.
  - apply (proj2 (from_dict_error_kinds ListSecretsResponse (VList []))).
    reflexivity.
Defined.

(** ** What [to_dict] does to each attribute *)

(** X6: for an attribute that holds a record, [to_dict()] has under the
    same key the [to_dict()] of that record; for one that holds a list, the
    list of the same length in which each item that is a record is
    replaced by its [to_dict()] and each other item, be it a list or a
    dictionary that holds records, is kept as it is; and for one that
    holds a boolean, an integer, a string or a dictionary, the value
    itself. *)
Theorem to_dict_field_conversion (o : instance) (k : string) :
  (forall r, getattr o k = Some (VObj r) ->
             lookup k (to_dict o) = Some (VDict (to_dict r))) /\
  (forall l, getattr o k = Some (VList l) ->
             lookup k (to_dict o) = Some (VList (map to_dict_item l))) /\
  (forall v, getattr o k = Some v ->
             (exists b, v = VBool b) \/ (exists n, v = VInt n) \/
             (exists s, v = VStr s) \/ (exists d, v = VDict d) ->
             lookup k (to_dict o) = Some v).
Proof.
  destruct o as [c d]. unfold getattr. simpl dict_of. rewrite to_dict_unfold.
  split; [|split].
  - intros r H. exact (lookup_to_dict_some k (VObj r) d H eq_refl).
  - intros l H. exact (lookup_to_dict_some k (VList l) d H eq_refl).
  - intros v H [[b ->] | [[n ->] | [[s ->] | [m ->]]]].
    + exact (lookup_to_dict_some k (VBool b) d H eq_refl).
    + exact (lookup_to_dict_some k (VInt n) d H eq_refl).
    + exact (lookup_to_dict_some k (VStr s) d H eq_refl).
    + exact (lookup_to_dict_some k (VDict m) d H eq_refl).
Qed.

Lemma to_dict_field_conversion_witness :
  lookup "secret" (to_dict (single_secret_response minimal_secret)) =
    Some (VDict (to_dict minimal_secret)) /\
  lookup "tags" (to_dict mixed_tags_secret) =
    Some (VList [VDict (to_dict sample_tag); VList [VObj sample_tag]; VEnum OPEN]) /\
  lookup "version" (to_dict minimal_secret) = Some (VInt 1).
Proof.
  split; [|split].
  - apply (proj1 (to_dict_field_conversion
                    (single_secret_response minimal_secret) "secret")).
    reflexivity.
  - apply (proj1 (proj2 (to_dict_field_conversion mixed_tags_secret "tags"))
             [VObj sample_tag; VList [VObj sample_tag]; VEnum OPEN]).
    reflexivity.
  - apply (proj2 (proj2 (to_dict_field_conversion minimal_secret "version"))).
    + reflexivity.
    + right. left. now exists 1%Z.
Defined.

Lemma NoDup_unique (l : list string) : NoDup l -> unique l = true.
Proof.
  induction 1 as [|k r Hk _ IH]; simpl; [reflexivity|].
  rewrite IH, andb_true_r.
  destruct (existsb (String.eqb k) r) eqn:E; [|reflexivity].
  apply existsb_eqb_In in E. contradiction.
Qed.

Lemma NoDup_keys_filter (p : string * value -> bool) (d : pydict) :
  NoDup (keys d) -> NoDup (keys (filter p d)).
Proof.
  induction d as [|kv r IH]; simpl; intros H; [constructor|].
  inversion H as [|? ? Hk Hr]; subst.
  destruct (p kv); simpl; [|now apply IH].
  constructor; [|now apply IH].
  intros Hin. apply Hk. unfold keys in *. apply in_map_iff in Hin.
  destruct Hin as [x [Hx Hin]]. apply filter_In in Hin.
  apply in_map_iff. exists x. tauto.
Qed.

Lemma plain_to_dict_value_plain (v : value) :
  plain v = true -> plain (to_dict_value v) = true.
Proof.
  intros Hp. destruct v; try assumption; try reflexivity; try discriminate.
  simpl to_dict_value.
  replace (map to_dict_item items) with items; [assumption|].
  simpl in Hp. rewrite forallb_forall in Hp.
  induction items as [|x r IH]; simpl; [reflexivity|].
  rewrite plain_to_dict_item by (apply Hp; now left).
  f_equal. apply IH. intros y Hy. apply Hp. now right.
Qed.

Lemma plain_dict_intro (d : pydict) :
  NoDup (keys d) -> plain_dict d = true -> plain (VDict d) = true.
Proof.
  intros Hnd Hp. simpl. apply andb_true_iff. split.
  - now apply NoDup_unique.
  - unfold plain_dict in Hp. rewrite forallb_forall in Hp.
    apply forallb_forall. intros [k v] Hin. exact (Hp (k, v) Hin).
Qed.

(** The serialization of a record that holds plain data is plain. *)
Lemma to_dict_plain (o : instance) :
  well_formed o -> plain_dict (dict_of o) = true -> plain (VDict (to_dict o)) = true.
Proof.
  destruct o as [c d]. unfold well_formed. simpl class_of. simpl dict_of.
  intros Hwf Hp. rewrite to_dict_unfold. apply plain_dict_intro.
  - rewrite keys_flat_map_entry. apply NoDup_keys_filter.
    rewrite Hwf. apply field_names_unique.
  - unfold plain_dict in *. rewrite forallb_forall in Hp.
    apply forallb_forall. intros kv Hin. apply in_flat_map in Hin.
    destruct Hin as [[k v] [Hmem Hin]]. unfold to_dict_entry in Hin.
    simpl in Hin. destruct (is_none v); [contradiction|].
    destruct Hin as [<- | []]. simpl.
    apply plain_to_dict_value_plain. exact (Hp (k, v) Hmem).
Qed.

Lemma to_dict_all_plain (cls : class_name) (l : list instance) :
  Forall
    (fun o => class_of o = cls /\ well_formed o /\ plain_dict (dict_of o) = true) l ->
  plain (VList (map (fun o => VDict (to_dict o)) l)) = true.
Proof.
  intros H. simpl. apply forallb_forall. intros v Hin.
  apply in_map_iff in Hin. destruct Hin as [o [<- Ho]].
  rewrite Forall_forall in H. destruct (H o Ho) as (_ & Hwf & Hp).
  now apply to_dict_plain.
Qed.

(** X7: when the data given to [from_dict] is plain decoded JSON, the
    [to_dict()] of the record it returns is plain as well, for every
    class: no instance of a model is left anywhere in it, and the keys of
    each of its dictionaries are distinct. *)
Theorem to_dict_of_decoded_is_plain (cls : class_name) (data : value) (o : instance) :
  plain data = true ->
  from_dict cls data = Ok o ->
  plain (VDict (to_dict o)) = true.
Proof.
  intros Hplain Hok.
  assert (Hgen : overrides_from_dict cls = false -> plain (VDict (to_dict o)) = true).
  { intros Hgen. rewrite (from_dict_generic _ _ Hgen) in Hok.
    destruct (generic_from_dict_plain _ _ _ Hplain Hok) as (_ & Hwf & Hp).
    now apply to_dict_plain. }
  destruct cls; try exact (Hgen eq_refl); clear Hgen; simpl in Hok.
  - apply list_secrets_from_dict_inv in Hok.
    destruct Hok as (kvs & sv & raws & secrets & iv & imps & imports &
                     -> & Hs & Hr & Hm & -> & Hi & Hmi & ->).
    assert (Hsv : plain sv = true) by exact (plain_lookup _ _ _ Hplain Hs).
    assert (Hiv : plain (match lookup "imports" kvs with
                         | Some v => v
                         | None => VList []
                         end) = true).
    { destruct (lookup "imports" kvs) eqn:E; [|reflexivity].
      exact (plain_lookup _ _ _ Hplain E). }
    pose proof (mapM_from_dict_plain _ _ _ (plain_iter _ _ Hsv Hr) Hm) as Hsec.
    pose proof (mapM_from_dict_plain _ _ _ (plain_iter _ _ Hiv Hi) Hmi) as Himp.
    rewrite to_dict_list_secrets.
    pose proof (to_dict_all_plain _ _ Hsec) as H1.
    pose proof (to_dict_all_plain _ _ Himp) as H2.
    change (plain (VList (map (fun o => VDict (to_dict o)) secrets)) &&
            (plain (VList (map (fun o => VDict (to_dict o)) imports)) && true)
            = true).
    now rewrite H1, H2.
  - apply single_secret_from_dict_inv in Hok.
    destruct Hok as (kvs & raw & secret & -> & Hs & Hb & ->).
    assert (Hraw : plain raw = true) by exact (plain_lookup _ _ _ Hplain Hs).
    destruct (generic_from_dict_plain _ _ _ Hraw Hb) as (_ & Hwf & Hp).
    pose proof (to_dict_plain secret Hwf Hp) as H1.
    unfold single_secret_response. rewrite to_dict_unfold.
    change (plain (VDict (to_dict secret)) && true = true).
    now rewrite H1.
Qed.

Lemma to_dict_of_decoded_is_plain_witness :
  plain (VDict (to_dict (list_secrets_response [minimal_secret] [raw_import]))) =
    true.
Proof.
  apply (to_dict_of_decoded_is_plain ListSecretsResponse list_response_raw);
    reflexivity.
Defined.

(** ** The envelopes *)

(** X8: the [secrets] and the [imports] of a list response are built item
    by item, in order: when the mapping has lists under [secrets] and
    [imports], the record holds one [BaseSecret] per item of the first and
    one [Import] per item of the second, at the same position, each being
    what the generic [from_dict] of its class returns on that item. *)
Theorem list_secrets_positionwise
  (kvs : pydict) (raw_secrets raw_imports : list value) (x : instance) :
  from_dict ListSecretsResponse (VDict kvs) = Ok x ->
  lookup "secrets" kvs = Some (VList raw_secrets) ->
  lookup "imports" kvs = Some (VList raw_imports) ->
  exists secrets imports,
    getattr x "secrets" = Some (VList (map VObj secrets)) /\
    getattr x "imports" = Some (VList (map VObj imports)) /\
    Forall2 (fun raw s => from_dict BaseSecret raw = Ok s) raw_secrets secrets /\
    Forall2 (fun raw i => from_dict Import raw = Ok i) raw_imports imports.
Proof.
  intros Hok Hs Hi. simpl in Hok. apply list_secrets_from_dict_inv in Hok.
  destruct Hok as (kvs0 & sv & raws & secrets & iv & imps & imports &
                   Heq & Hs0 & Hr & Hm & -> & Hit & Hmi & ->).
  injection Heq as <-. rewrite Hs in Hs0. injection Hs0 as <-.
  rewrite Hi in Hit. simpl in Hr, Hit.
  injection Hr as <-. injection Hit as <-.
  exists secrets, imports. repeat split.
  - exact (mapM_inv _ _ _ Hm).
  - exact (mapM_inv _ _ _ Hmi).
Qed.

Lemma list_secrets_positionwise_witness :
  exists secrets imports,
    getattr (list_secrets_response [minimal_secret] [raw_import]) "secrets" =
      Some (VList (map VObj secrets)) /\
    getattr (list_secrets_response [minimal_secret] [raw_import]) "imports" =
      Some (VList (map VObj imports)) /\
    Forall2 (fun raw s => from_dict BaseSecret raw = Ok s)
      [VDict required_only] secrets /\
    Forall2 (fun raw i => from_dict Import raw = Ok i) [VDict import_raw] imports.
Proof.
  apply (list_secrets_positionwise list_response_kvs); reflexivity.
Defined.

(** X9: the secrets nested in an import are not converted: in a list
    response built by [ListSecretsResponse.from_dict], each import holds
    under [secrets] the very value its mapping had under that key, raw
    mappings included, while the secrets of the response itself are
    [BaseSecret] instances. *)
Theorem import_secrets_stay_raw
  (kvs : pydict) (raw_imports : list value) (x : instance) :
  from_dict ListSecretsResponse (VDict kvs) = Ok x ->
  lookup "imports" kvs = Some (VList raw_imports) ->
  exists imports,
    getattr x "imports" = Some (VList (map VObj imports)) /\
    Forall2
      (fun raw i =>
         class_of i = Import /\
         forall m v, raw = VDict m -> lookup "secrets" m = Some v ->
                     getattr i "secrets" = Some v)
      raw_imports imports.
Proof.
  intros Hok Hi. simpl in Hok. apply list_secrets_from_dict_inv in Hok.
  destruct Hok as (kvs0 & sv & raws & secrets & iv & imps & imports &
                   Heq & _ & _ & _ & -> & Hit & Hmi & ->).
  injection Heq as <-. rewrite Hi in Hit. simpl in Hit. injection Hit as <-.
  exists imports. split; [reflexivity|].
  apply mapM_inv in Hmi. clear Hi.
  induction Hmi as [|raw i raws' imports' Hraw _ IH]; [constructor|].
  constructor; [|exact IH].
  apply generic_from_dict_inv in Hraw.
  destruct Hraw as [kw [-> [_ ->]]]. split; [reflexivity|].
  intros m v Heq Hv. injection Heq as <-.
  unfold getattr. simpl dict_of.
  pose proof (lookup_bound Import kw
                (mkField "secrets" (TList (TModel BaseSecret)) DefaultFactoryList))
    as Hb.
  cbn [fname] in Hb. rewrite Hb by (simpl; tauto).
  unfold bound_value. cbn [fname]. now rewrite Hv.
Qed.

Lemma import_secrets_stay_raw_witness :
  exists imports,
    getattr (list_secrets_response [minimal_secret] [raw_import]) "imports" =
      Some (VList (map VObj imports)) /\
    Forall2
      (fun raw i =>
         class_of i = Import /\
         forall m v, raw = VDict m -> lookup "secrets" m = Some v ->
                     getattr i "secrets" = Some v)
      [VDict import_raw] imports.
Proof.
  apply (import_secrets_stay_raw list_response_kvs); reflexivity.
Defined.

(** X10: the default of [imports] only stands for a missing key: when the
    mapping has the key [secrets] and has under [imports] a value that
    cannot be iterated, [None] for one, [ListSecretsResponse.from_dict]
    raises [TypeError]. *)
Theorem list_secrets_null_imports (kvs : pydict) (secrets imports : value) (e : exn) :
  lookup "secrets" kvs = Some secrets ->
  lookup "imports" kvs = Some imports ->
  py_iter imports = Raise e ->
  from_dict ListSecretsResponse (VDict kvs) = Raise TypeError.
Proof.
  intros Hs Hi He. simpl. unfold ListSecretsResponse_from_dict.
  simpl getitem. simpl dict_get. rewrite Hs, Hi. cbn [bind].
  destruct (py_iter secrets) as [raws|e1] eqn:Er; cbn [bind];
    [|now rewrite (py_iter_error _ _ Er)].
  destruct (mapM (BaseModel_from_dict BaseSecret) raws) as [secs|e2] eqn:Em;
    cbn [bind]; [|now rewrite (mapM_from_dict_error _ _ _ Em)].
  rewrite He. cbn [bind]. now rewrite (py_iter_error _ _ He).
Qed.

Lemma list_secrets_null_imports_witness :
  from_dict ListSecretsResponse
    (VDict [("secrets", VList [VDict required_only]); ("imports", VNone)]) =
  Raise TypeError.
Proof.
  apply (list_secrets_null_imports
           [("secrets", VList [VDict required_only]); ("imports", VNone)]
           (VList [VDict required_only]) VNone TypeError);
    reflexivity.
Defined.

(** ** Attribute assignment and the round trip *)

Lemma lookup_dict_set_same (d : pydict) (k : string) (v : value) :
  lookup k (dict_set d k v) = Some v.
Proof.
  induction d as [|[k' w] r IH]; simpl.
  - now rewrite String.eqb_refl.
  - destruct (String.eqb k' k) eqn:E; simpl; now rewrite E.
Qed.

Lemma lookup_dict_set_other (d : pydict) (k k' : string) (v : value) :
  k' <> k -> lookup k' (dict_set d k v) = lookup k' d.
Proof.
  intros Hneq. induction d as [|[k0 w] r IH]; simpl.
  - apply not_eq_sym in Hneq. apply String.eqb_neq in Hneq. now rewrite Hneq.
  - destruct (String.eqb k0 k) eqn:E; simpl.
    + apply String.eqb_eq in E. subst k0.
      apply not_eq_sym in Hneq. apply String.eqb_neq in Hneq. now rewrite Hneq.
    + now rewrite IH.
Qed.

Lemma keys_dict_set_present (d : pydict) (k : string) (v : value) :
  In k (keys d) -> keys (dict_set d k v) = keys d.
Proof.
  induction d as [|[k' w] r IH]; simpl; [tauto|].
  destruct (String.eqb k' k) eqn:E; simpl; [reflexivity|].
  intros [Heq | Hin].
  - subst. now rewrite String.eqb_refl in E.
  - now rewrite IH.
Qed.

Lemma setattr_ordinary (c : class_name) (d : pydict) (name : string) (v : value) :
  frozen c = false -> special_name name = false ->
  setattr (Instance c d) name v = (Instance c (dict_set d name v), None).
Proof.
  unfold setattr, special_name. intros -> Hsp.
  apply orb_false_iff in Hsp. destruct Hsp as [Hsp Hw].
  apply orb_false_iff in Hsp. destruct Hsp as [Hc Hd].
  now rewrite Hc, Hd, Hw.
Qed.

(** X11: the classes other than [SecretTag] are not frozen: an assignment
    to an attribute of one of their instances, the name being none of
    [__class__], [__dict__] and [__weakref__], raises nothing, the
    attribute then holds the assigned value, every other attribute and the
    class are as before, and when the name is one of the attributes the
    instance has, the attributes and their order are as before. *)
Theorem setattr_mutable (o : instance) (name : string) (v : value) :
  frozen (class_of o) = false ->
  special_name name = false ->
  exists o',
    setattr o name v = (o', None) /\
    class_of o' = class_of o /\
    getattr o' name = Some v /\
    (forall k, k <> name -> getattr o' k = getattr o k) /\
    (In name (keys (dict_of o)) -> keys (dict_of o') = keys (dict_of o)).
Proof.
  destruct o as [c d]. simpl class_of. intros Hfr Hsp.
  exists (Instance c (dict_set d name v)).
  rewrite (setattr_ordinary c d name v Hfr Hsp).
  unfold getattr. simpl dict_of. simpl class_of.
  split; [reflexivity|]. split; [reflexivity|].
  split; [apply lookup_dict_set_same|]. split.
  - intros k Hk. now apply lookup_dict_set_other.
  - apply keys_dict_set_present.
Qed.

Lemma setattr_mutable_witness :
  exists o',
    setattr minimal_secret "secretValue" (VStr "W") = (o', None) /\
    class_of o' = BaseSecret /\
    getattr o' "secretValue" = Some (VStr "W") /\
    (forall k, k <> "secretValue" -> getattr o' k = getattr minimal_secret k) /\
    (In "secretValue" (keys (dict_of minimal_secret)) ->
     keys (dict_of o') = keys (dict_of minimal_secret)).
Proof.
  apply (setattr_mutable minimal_secret "secretValue" (VStr "W")); reflexivity.
Defined.

(** X12: [to_dict] walks the attributes the instance has, not the declared
    fields.  Let a record that is not frozen have exactly its declared
    attributes and hold plain data, and let an attribute that is no
    declared field be assigned a plain value other than [None], the name
    being none of [__class__], [__dict__], [__weakref__] and [to_dict]:
    then the [to_dict()] of the record has that key, and the generic
    [from_dict] refuses it with a [TypeError]. *)
Theorem added_attribute_rejected (o : instance) (name : string) (v : value) :
  overrides_from_dict (class_of o) = false ->
  frozen (class_of o) = false ->
  special_name name = false ->
  name <> "to_dict" ->
  ~ In name (field_names (class_of o)) ->
  well_formed o ->
  plain_dict (dict_of o) = true ->
  plain v = true ->
  v <> VNone ->
  lookup name (to_dict (fst (setattr o name v))) = Some (to_dict_value v) /\
  from_dict (class_of o) (VDict (to_dict (fst (setattr o name v)))) =
    Raise TypeError.
Proof.
  destruct o as [c d]. simpl class_of.
  intros Hgen Hfr Hsp _ Hname _ _ _ Hv.
  rewrite (setattr_ordinary c d name v Hfr Hsp). simpl fst.
  rewrite to_dict_unfold.
  assert (Hk : lookup name (flat_map to_dict_entry (dict_set d name v)) =
               Some (to_dict_value v)).
  { apply lookup_to_dict_some; [apply lookup_dict_set_same|].
    destruct v; try reflexivity. now destruct Hv. }
  split; [exact Hk|].
  rewrite (from_dict_generic _ _ Hgen). simpl.
  apply construct_error, wrong_shape. left. exists name. split; [|exact Hname].
  apply lookup_In in Hk. unfold keys.
  change name with (fst (name, to_dict_value v)). now apply in_map.
Qed.

Lemma added_attribute_rejected_witness :
  lookup "note" (to_dict (fst (setattr minimal_secret "note" (VStr "n")))) =
    Some (VStr "n") /\
  from_dict BaseSecret
    (VDict (to_dict (fst (setattr minimal_secret "note" (VStr "n"))))) =
    Raise TypeError.
Proof.
  apply (added_attribute_rejected minimal_secret "note" (VStr "n"));
    try reflexivity; try discriminate.
  simpl. intuition discriminate.
Defined.

(** X13: a record that holds [None] in a field without default cannot be
    rebuilt from its own [to_dict()]: the key is omitted and the generic
    [from_dict] raises [TypeError].  The generic [from_dict] itself builds
    such records, since it accepts [None] for any field. *)
Theorem required_none_rejected (o : instance) (f : field) :
  overrides_from_dict (class_of o) = false ->
  well_formed o ->
  In f (fields (class_of o)) ->
  fdefault f = Required ->
  getattr o (fname f) = Some VNone ->
  lookup (fname f) (to_dict o) = None /\
  from_dict (class_of o) (VDict (to_dict o)) = Raise TypeError.
Proof.
  destruct o as [c d]. unfold well_formed, getattr. simpl class_of.
  simpl dict_of. intros Hgen Hwf Hf Hreq Hnone. rewrite to_dict_unfold.
  assert (Hk : lookup (fname f) (flat_map to_dict_entry d) = None).
  { apply lookup_to_dict_none; [|exact Hnone].
    rewrite Hwf. apply field_names_unique. }
  split; [exact Hk|].
  rewrite (from_dict_generic _ _ Hgen). simpl.
  apply construct_error, wrong_shape. right. exists f. tauto.
Qed.

Lemma required_none_rejected_witness :
  from_dict BaseSecret (VDict null_id_raw) = Ok null_id_secret /\
  lookup "id" (to_dict null_id_secret) = None /\
  from_dict BaseSecret (VDict (to_dict null_id_secret)) = Raise TypeError.
Proof.
  split; [reflexivity|].
  apply (required_none_rejected null_id_secret (mkField "id" TStr Required));
    try reflexivity.
  simpl. tauto.
Defined.

(** ** Exact round trips *)

Lemma typed_login_shape (o : instance) :
  class_of o = MachineIdentityLoginResponse -> well_formed o ->
  well_typed o = true ->
  exists token expires ttl kind, o = login_response token expires ttl kind.
Proof.
  destruct o as [c d]. unfold well_formed, well_typed. simpl class_of.
  simpl dict_of. intros -> Hk Ht.
  destruct d as [|[k1 v1] [|[k2 v2] [|[k3 v3] [|[k4 v4] [|? ?]]]]];
    try discriminate Hk.
  injection Hk as -> -> -> ->.
  unfold getattr in Ht. simpl in Ht.
  destruct v1; try discriminate Ht. destruct v2; try discriminate Ht.
  destruct v3; try discriminate Ht. destruct v4; try discriminate Ht.
  now exists s, n, n0, s0.
Qed.

Lemma typed_metadata_shape (o : instance) :
  class_of o = SecretMetadata -> well_formed o -> well_typed o = true ->
  exists key value, o = secret_metadata key value.
Proof.
  destruct o as [c d]. unfold well_formed, well_typed. simpl class_of.
  simpl dict_of. intros -> Hk Ht.
  destruct d as [|[k1 v1] [|[k2 v2] [|? ?]]]; try discriminate Hk.
  injection Hk as -> ->.
  unfold getattr in Ht. simpl in Ht.
  destruct v1; try discriminate Ht. destruct v2; try discriminate Ht.
  now exists s, s0.
Qed.



Lemma to_dict_value_idempotent (v : value) :
  plain v = true -> to_dict_value (to_dict_value v) = to_dict_value v.
Proof.
  intros Hp. destruct v; try reflexivity; try discriminate.
  simpl to_dict_value.
  assert (Hl : map to_dict_item items = items).
  { simpl in Hp. rewrite forallb_forall in Hp.
    induction items as [|x r IH]; simpl; [reflexivity|].
    rewrite plain_to_dict_item by (apply Hp; now left).
    f_equal. apply IH. intros y Hy. apply Hp. now right. }
  now rewrite !Hl.
Qed.

Lemma to_dict_value_is_none (v : value) :
  is_none v = false -> is_none (to_dict_value v) = false.
Proof. destruct v; simpl; congruence. Qed.

Lemma default_cases (cls : class_name) (f : field) (v : value) :
  In f (fields cls) -> fdefault f = Default v -> v = VNone \/ v = VBool false.
Proof.
  intros Hin Hd.
  assert (Hall : forallb
                   (fun f' => match fdefault f' with
                              | Default VNone | Default (VBool false) => true
                              | Default _ => false
                              | _ => true
                              end) (fields cls) = true)
    by (destruct cls; reflexivity).
  rewrite forallb_forall in Hall. specialize (Hall f Hin). rewrite Hd in Hall.
  destruct v as [| [|] | | | | | | |]; try discriminate; tauto.
Qed.

Section StableRoundTrip.

Variable cls : class_name.
Variable d : pydict.
Hypothesis Hwf : keys d = field_names cls.
Hypothesis Hplain : plain_dict d = true.
Hypothesis Hshape : shape_ok cls (flat_map to_dict_entry d) = true.

(** What the first round trip leaves in a field is not changed by
    [to_dict]. *)
Lemma rebuilt_field (f : field) :
  In f (fields cls) ->
  (bound_value (flat_map to_dict_entry d) f = VNone /\
   fdefault f = Default VNone) \/
  (is_none (bound_value (flat_map to_dict_entry d) f) = false /\
   to_dict_value (bound_value (flat_map to_dict_entry d) f) =
     bound_value (flat_map to_dict_entry d) f).
Proof.
  intros Hf. unfold bound_value.
  destruct (lookup_Some_key (fname f) d) as [v Hv].
  { rewrite Hwf. unfold field_names. now apply in_map. }
  assert (Hnd : NoDup (keys d)) by (rewrite Hwf; apply field_names_unique).
  destruct (is_none v) eqn:Ev.
  - destruct v; try discriminate.
    rewrite (lookup_to_dict_none _ _ Hnd Hv).
    pose proof Hshape as Hs. unfold shape_ok in Hs.
    apply andb_true_iff in Hs. destruct Hs as [_ Hr].
    rewrite forallb_forall in Hr. specialize (Hr f Hf).
    unfold is_required, has_key in Hr.
    rewrite (lookup_to_dict_none _ _ Hnd Hv) in Hr.
    destruct (fdefault f) as [|w|] eqn:Ed; [discriminate | |].
    + destruct (default_cases cls f w Hf Ed) as [-> | ->]; [now left | now right].
    + now right.
  - rewrite (lookup_to_dict_some _ _ _ Hv Ev). right. split.
    + now apply to_dict_value_is_none.
    + apply to_dict_value_idempotent.
      pose proof Hplain as Hp. unfold plain_dict in Hp.
      rewrite forallb_forall in Hp. exact (Hp _ (lookup_In _ _ _ Hv)).
Qed.

Lemma rebuilt_lookup (f : field) :
  In f (fields cls) ->
  bound_value
    (flat_map to_dict_entry (bound cls (flat_map to_dict_entry d))) f =
  bound_value (flat_map to_dict_entry d) f /\
  negb (is_required f) ||
  has_key (fname f)
    (flat_map to_dict_entry (bound cls (flat_map to_dict_entry d))) = true.
Proof.
  intros Hf.
  pose proof (lookup_bound cls (flat_map to_dict_entry d) f Hf) as Hb.
  assert (Hnd : NoDup (keys (bound cls (flat_map to_dict_entry d)))).
  { unfold bound. rewrite keys_map_fields. apply field_names_unique. }
  destruct (rebuilt_field f Hf) as [[Hn Hd] | [Hn Hfix]].
  - rewrite Hn in Hb. unfold bound_value at 1, has_key, is_required.
    rewrite (lookup_to_dict_none _ _ Hnd Hb), Hd, Hn. split; reflexivity.
  - unfold bound_value at 1, has_key.
    rewrite (lookup_to_dict_some _ _ _ Hb Hn), Hfix.
    split; [reflexivity | apply orb_true_r].
Qed.

Lemma stable_round_trip :
  BaseModel_from_dict cls
    (VDict (to_dict (Instance cls (bound cls (flat_map to_dict_entry d))))) =
  Ok (Instance cls (bound cls (flat_map to_dict_entry d))).
Proof.
  unfold BaseModel_from_dict. rewrite to_dict_unfold.
  rewrite construct_ok.
  - do 2 f_equal. unfold bound at 1. unfold bound at 2. apply map_ext_in.
    intros f Hf. f_equal. apply (rebuilt_lookup f Hf).
  - unfold shape_ok. apply andb_true_iff. split.
    + apply forallb_forall. intros k Hk. apply is_field_In.
      rewrite <- (to_dict_unfold cls) in Hk.
      apply keys_to_dict_incl in Hk. simpl in Hk. unfold bound in Hk. now rewrite keys_map_fields in Hk.
    + apply forallb_forall. intros f Hf. apply (rebuilt_lookup f Hf).
Qed.

End StableRoundTrip.

(** X15: one round trip normalizes a record and a second one changes
    nothing: when a record with exactly its declared attributes holds plain
    data and [from_dict(to_dict(R))] returns R', then
    [from_dict(to_dict(R'))] returns R' itself. *)
Theorem round_trip_stable (o o' : instance) :
  overrides_from_dict (class_of o) = false ->
  well_formed o ->
  plain_dict (dict_of o) = true ->
  from_dict (class_of o) (VDict (to_dict o)) = Ok o' ->
  from_dict (class_of o) (VDict (to_dict o')) = Ok o'.
Proof.
  destruct o as [cls d]. unfold well_formed. simpl class_of. simpl dict_of.
  intros Hgen Hwf Hplain Hok.
  rewrite (from_dict_generic cls _ Hgen) in Hok.
  unfold BaseModel_from_dict in Hok. rewrite to_dict_unfold in Hok.
  apply construct_inv in Hok. destruct Hok as [Hshape ->].
  rewrite (from_dict_generic cls _ Hgen).
  exact (stable_round_trip cls d Hwf Hplain Hshape).
Qed.

Lemma round_trip_stable_witness :
  from_dict BaseSecret (VDict (to_dict null_flag_secret)) = Ok minimal_secret /\
  from_dict BaseSecret (VDict (to_dict minimal_secret)) = Ok minimal_secret.
Proof.
  split; [reflexivity|].
  apply (round_trip_stable null_flag_secret minimal_secret); reflexivity.
Defined.

(** X16: what the wire carries survives decoding and encoding: when the
    generic [from_dict] accepts a plain mapping, every entry of the
    mapping that is not [None] has in the [to_dict()] of the record, under
    the same key, a value equal to it, and every key of that [to_dict()]
    is a declared field. *)
Theorem wire_entries_survive
  (cls : class_name) (kwargs : pydict) (o : instance) (k : string) (v : value) :
  overrides_from_dict cls = false ->
  plain (VDict kwargs) = true ->
  from_dict cls (VDict kwargs) = Ok o ->
  lookup k kwargs = Some v ->
  v <> VNone ->
  (exists w, lookup k (to_dict o) = Some w /\ py_eq w v = true) /\
  incl (keys (to_dict o)) (field_names cls).
Proof.
  intros Hgen Hplain Hok Hk Hv.
  rewrite (from_dict_generic _ _ Hgen) in Hok.
  apply generic_from_dict_inv in Hok.
  destruct Hok as [kw [Heq [Hshape ->]]]. injection Heq as <-.
  split.
  - exists (to_dict_value v). split.
    + rewrite to_dict_unfold. apply lookup_to_dict_some.
      * unfold shape_ok in Hshape. apply andb_true_iff in Hshape.
        destruct Hshape as [Hkeys _]. rewrite forallb_forall in Hkeys.
        assert (Hin : In k (field_names cls)).
        { apply is_field_In, Hkeys. apply lookup_In in Hk.
          unfold keys. change k with (fst (k, v)). now apply in_map. }
        unfold field_names in Hin. apply in_map_iff in Hin.
        destruct Hin as [f [<- Hf]].
        rewrite (lookup_bound cls kwargs f Hf). unfold bound_value.
        now rewrite Hk.
      * destruct v; try reflexivity. now destruct Hv.
    + apply plain_to_dict_value. exact (plain_lookup _ _ _ Hplain Hk).
  - intros x Hx. apply keys_to_dict_incl in Hx. simpl in Hx.
    unfold bound in Hx. now rewrite keys_map_fields in Hx.
Qed.

Lemma wire_entries_survive_witness :
  (exists w,
     lookup "secretValue" (to_dict minimal_secret) = Some w /\
     py_eq w (VStr "V") = true) /\
  incl (keys (to_dict minimal_secret)) (field_names BaseSecret).
Proof.
  apply (wire_entries_survive BaseSecret required_only minimal_secret);
    (reflexivity || discriminate).
Defined.

(** ** JSON text, there and back *)

(** X17: [to_json] followed by [from_json] gives back an equal record:
    let R be a record of a class that uses the generic [from_dict], with
    exactly its declared attributes, plain data, and no [None] but where
    [None] is the declared default; if the decoder reads the text the
    encoder wrote for [to_dict(R)] back into that mapping, then
    [from_json(to_json(R))] succeeds and its result is equal ([==]) to
    R. *)
Theorem json_round_trip
  (json_dumps : value -> result string) (json_loads : string -> result value)
  (o : instance) (text : string) :
  overrides_from_dict (class_of o) = false ->
  well_formed o ->
  plain_dict (dict_of o) = true ->
  lossless o = true ->
  (forall s, json_dumps (VDict (to_dict o)) = Ok s ->
             json_loads s = Ok (VDict (to_dict o))) ->
  to_json json_dumps o = Ok text ->
  exists o',
    from_json json_loads (class_of o) text = Ok o' /\
    py_eq (VObj o') (VObj o) = true.
Proof.
  destruct o as [cls d]. simpl class_of. simpl dict_of.
  intros Hgen Hwf Hplain Hloss Hinv Hdump.
  unfold to_json in Hdump. unfold from_json.
  rewrite (Hinv text Hdump). cbn [bind].
  rewrite (from_dict_generic cls _ Hgen).
  destruct (generic_round_trip cls d Hwf Hplain Hloss) as [Hok Heq].
  eauto.
Qed.

Lemma json_round_trip_witness :
  exists text o',
    to_json SampleEncoder.dumps minimal_secret = Ok text /\
    from_json SampleDecoder.loads BaseSecret text = Ok o' /\
    py_eq (VObj o') (VObj minimal_secret) = true.
Proof.
  destruct (SampleEncoder.dumps (VDict (to_dict minimal_secret))) as [text|e] eqn:E;
    [|vm_compute in E; discriminate E].
  exists text.
  destruct (json_round_trip SampleEncoder.dumps SampleDecoder.loads
              minimal_secret text) as [o' [Hok Heq]]; try reflexivity.
  - intros s Hs. rewrite E in Hs. injection Hs as <-.
    vm_compute in E. injection E as <-. vm_compute. reflexivity.
  - exact E.
  - exists o'. repeat split; assumption.
Defined.

(** ** More on the list response *)

(** X18: the [to_dict()] of a record returned by
    [ListSecretsResponse.from_dict] always has the two keys [secrets] and
    [imports], in this order, also when the mapping had no [imports]; both
    hold lists of mappings, one per secret and per import. *)
Theorem list_response_to_dict_keys (data : value) (x : instance) :
  from_dict ListSecretsResponse data = Ok x ->
  keys (to_dict x) = ["secrets"; "imports"] /\
  exists secrets imports,
    held_instances x = secrets ++ imports /\
    lookup "secrets" (to_dict x) =
      Some (VList (map (fun o => VDict (to_dict o)) secrets)) /\
    lookup "imports" (to_dict x) =
      Some (VList (map (fun o => VDict (to_dict o)) imports)).
Proof.
  intros Hok. simpl in Hok. apply list_secrets_from_dict_inv in Hok.
  destruct Hok as (kvs & sv & raws & secrets & iv & imps & imports &
                   _ & _ & _ & _ & _ & _ & _ & ->).
  rewrite to_dict_list_secrets. split; [reflexivity|].
  exists secrets, imports. rewrite held_list_secrets.
  repeat split; reflexivity.
Qed.

Lemma list_response_to_dict_keys_witness :
  keys (to_dict (list_secrets_response [minimal_secret] [])) =
    ["secrets"; "imports"] /\
  exists secrets imports,
    held_instances (list_secrets_response [minimal_secret] []) =
      secrets ++ imports /\
    lookup "secrets" (to_dict (list_secrets_response [minimal_secret] [])) =
      Some (VList (map (fun o => VDict (to_dict o)) secrets)) /\
    lookup "imports" (to_dict (list_secrets_response [minimal_secret] [])) =
      Some (VList (map (fun o => VDict (to_dict o)) imports)).
Proof.
  apply (list_response_to_dict_keys
           (VDict [("secrets", VList [VDict required_only])])).
  reflexivity.
Defined.

Lemma mapM_from_dict_mappings (cls : class_name) (raws : list value) (l : list instance) :
  mapM (BaseModel_from_dict cls) raws = Ok l ->
  forallb is_mapping raws = true.
Proof.
  intros H. apply mapM_inv in H. apply forallb_forall. intros raw Hin.
  induction H as [|x o raws' l' Hx _ IH]; simpl in Hin; [contradiction|].
  destruct Hin as [<- | Hin]; [|exact (IH Hin)].
  apply generic_from_dict_inv in Hx. destruct Hx as [kw [-> _]]. reflexivity.
Qed.

(** X19: [ListSecretsResponse.from_dict] iterates over whatever it finds
    under [secrets]: when it returns a record, the value under [secrets]
    was a list whose items are all mappings, or else an empty dictionary
    or an empty string, which are taken for no secrets at all. *)
Theorem list_secrets_accepted_secrets (kvs : pydict) (secrets : value) (x : instance) :
  from_dict ListSecretsResponse (VDict kvs) = Ok x ->
  lookup "secrets" kvs = Some secrets ->
  (exists raws, secrets = VList raws /\ forallb is_mapping raws = true) \/
  ((secrets = VDict [] \/ secrets = VStr "") /\
   getattr x "secrets" = Some (VList [])).
Proof.
  intros Hok Hs. simpl in Hok. apply list_secrets_from_dict_inv in Hok.
  destruct Hok as (kvs0 & sv & raws & secs & iv & imps & imports &
                   Heq & Hs0 & Hr & Hm & _ & _ & _ & ->).
  injection Heq as <-. rewrite Hs in Hs0. injection Hs0 as <-.
  pose proof (mapM_from_dict_mappings _ _ _ Hm) as Hmaps.
  destruct secrets as [| | | s | e | l | d | |]; simpl in Hr; try discriminate;
    injection Hr as <-.
  - right. destruct s as [|c s]; [|discriminate Hmaps].
    simpl in Hm. injection Hm as <-. split; [now right | reflexivity].
  - destruct e; discriminate Hmaps.
  - left. exists l. tauto.
  - right. destruct d as [|[k v] d]; [|discriminate Hmaps].
    simpl in Hm. injection Hm as <-. split; [now left | reflexivity].
Qed.

Lemma list_secrets_accepted_secrets_witness :
  from_dict ListSecretsResponse (VDict [("secrets", VDict [])]) =
    Ok (list_secrets_response [] []) /\
  ((exists raws, VDict [] = VList raws /\ forallb is_mapping raws = true) \/
   ((VDict [] = VDict [] \/ VDict [] = VStr "") /\
    getattr (list_secrets_response [] []) "secrets" = Some (VList []))).
Proof.
  split; [reflexivity|].
  apply (list_secrets_accepted_secrets [("secrets", VDict [])]); reflexivity.
Defined.
